(** * GadgetSetAnalyzer: the driver [GSA.py]

    The development has these parts.

    - [Py]: the fragments of Python that the driver relies on:
      [str.split], truthiness of strings, insertion-ordered [dict],
      [str] of an integer, and the exceptions that can leave the script.
    - [GSA]: a shallow embedding of [src/GSA.py].  The script is a
      sequence of effects (console lines, constructor calls, directory
      creation, file writes) that may be cut short by an exception, so it
      lives in a small trace-and-exception monad.  The classes
      [GadgetSet] and [GadgetStats] and the helpers of [utility] are
      collaborators of the script; they are taken as an environment.
    - [World]: one small concrete environment, in which runs evaluate.
    - [Stats]: identity of gadgets by content, as the specification of
      the comparison has it.
    - [Runs] and [Percent]: the script as a function of what its
      collaborators return, and the shape of the rate fields.

    The facts come after the definitions: the Python fragments, the
    traces of computations, the phases of the script, and then the
    properties of runs. *)

From Stdlib Require Import List String Ascii ZArith Bool Lia DecimalString.
Import ListNotations.
Open Scope string_scope.

(* ===================================================================== *)
(** * Python fragments *)
(* ===================================================================== *)

Module Py.

(** [s.split(sep)] for a one-character separator: the string is cut at
    every occurrence of [sep]; a string without [sep] gives one part. *)
Fixpoint split (sep : ascii) (s : string) : list string :=
  match s with
  | EmptyString => [EmptyString]
  | String c r =>
      if Ascii.eqb c sep then EmptyString :: split sep r
      else match split sep r with
           | [] => [String c EmptyString]
           | p :: ps => String c p :: ps
           end
  end.

(** [c in s] for a character [c]. *)
Fixpoint contains (c : ascii) (s : string) : bool :=
  match s with
  | EmptyString => false
  | String a r => Ascii.eqb a c || contains c r
  end.

(** [not s] on a [str]: true exactly for the empty string. *)
Definition not_str (s : string) : bool :=
  match s with
  | EmptyString => true
  | String _ _ => false
  end.

(** [parts[i]] where the index is known to be in range. *)
Definition item (parts : list string) (i : nat) : string :=
  nth i parts EmptyString.

(** [len(l)] and [str(n)] for an [int]. *)
Definition len {A : Type} (l : list A) : Z := Z.of_nat (List.length l).

Definition str (z : Z) : string := NilZero.string_of_int (Z.to_int z).

(** A [dict] with [str] keys and values.  Python dictionaries keep the
    order in which keys were first inserted; assigning to a key that is
    already present replaces its value in place. *)
Definition dict : Type := list (string * string).

Fixpoint setitem (d : dict) (k v : string) : dict :=
  match d with
  | [] => [(k, v)]
  | (k', v') :: r =>
      if String.eqb k' k then (k', v) :: r else (k', v') :: setitem r k v
  end.

Definition keys (d : dict) : list string := map fst d.

Fixpoint get (d : dict) (k : string) : option string :=
  match d with
  | [] => None
  | (k', v) :: r => if String.eqb k' k then Some v else get r k
  end.

(** The dictionary left by a run of assignments [d[k] = v], the keys in
    the order of their first assignment, and the value last assigned to a
    key. *)
Definition assign_all (d : dict) (pairs : list (string * string)) : dict :=
  fold_left (fun d kv => setitem d (fst kv) (snd kv)) pairs d.

Fixpoint first_occurrences (seen l : list string) : list string :=
  match l with
  | [] => []
  | k :: rest =>
      if existsb (String.eqb k) seen then first_occurrences seen rest
      else k :: first_occurrences (seen ++ [k]) rest
  end.

Fixpoint last_value (pairs : list (string * string)) (k : string) : option string :=
  match pairs with
  | [] => None
  | (k', v) :: rest =>
      match last_value rest k with
      | Some later => Some later
      | None => if String.eqb k' k then Some v else None
      end
  end.

(** An [OSError] carries the text of [str(e)] and its [strerror]
    attribute, which is [None] when the error was built from a message
    alone. *)
Record oserror : Type := mk_oserror {
  strerror : option string;
  os_str : string
}.

(** The argument of [SystemExit]: [exit(1)] passes an integer status,
    [sys.exit("...")] a message that is printed on stderr. *)
Inductive exit_arg : Type :=
| Code (n : Z)
| Message (msg : string).

(** The exceptions that matter to the script: the three it raises or
    catches by name, and any other one, known by the name of its class. *)
Inductive exn : Type :=
| SystemExit (a : exit_arg)
| TypeError (msg : string)
| OSError (e : oserror)
| Failure (name : string).

(** Exit status of the interpreter for a script that ended normally
    ([inr]) or with an exception that nothing caught ([inl]). *)
Definition exit_status {A : Type} (r : exn + A) : Z :=
  match r with
  | inr _ => 0%Z
  | inl (SystemExit (Code n)) => n
  | inl _ => 1%Z
  end.

End Py.

(* ===================================================================== *)
(** * The driver script *)
(* ===================================================================== *)

Module GSA.

Import Py.

Definition LINE_SEP : string := String (ascii_of_nat 10) EmptyString.

(** The message of [str + None]: can only concatenate str (not
    ["NoneType"]) to str, with the double quotes that CPython prints. *)
Definition QUOTE : string := String (ascii_of_nat 34) EmptyString.

Definition str_plus_None : string :=
  "can only concatenate str (not " ++ QUOTE ++ "NoneType" ++ QUOTE ++ ") to str".

(** The namespace returned by [parser.parse_args()].  [--variants] has
    [nargs='+'] and neither a default nor [required=True], so the
    attribute is [None] when the option is not given. *)
Record Namespace : Type := {
  original : string;
  variants : option (list string);
  output_metrics : bool;
  output_addresses : bool;
  output_tables : string;
  result_folder_name : option string;
  original_name : string;
  output_console : bool;
  output_locality : bool;
  output_simple : bool
}.

(** Line 45: [args.output_locality = args.output_locality or
    args.output_simple]. *)
Definition enable_locality (args : Namespace) : Namespace :=
  {| original := original args;
     variants := variants args;
     output_metrics := output_metrics args;
     output_addresses := output_addresses args;
     output_tables := output_tables args;
     result_folder_name := result_folder_name args;
     original_name := original_name args;
     output_console := output_console args;
     output_locality := output_locality args || output_simple args;
     output_simple := output_simple args |}.

(** ** Entries of [--variants]

    The three ways in which an entry [NAME=PATH] can be malformed, and a
    well-formed entry, stated on the text of the entry. *)

Definition EQUALS : ascii := "="%char.

Definition missing_equals (entry : string) : Prop :=
  contains EQUALS entry = false.

Definition empty_name (entry : string) : Prop :=
  exists path, entry = String EQUALS path.

Definition empty_path (entry : string) : Prop :=
  exists name, entry = name ++ String EQUALS EmptyString.

Definition malformed (entry : string) : Prop :=
  missing_equals entry \/ empty_name entry \/ empty_path entry.

(** [NAME=PATH] with a name and a path that are not empty and hold no
    further [=]. *)
Definition proper_part (s : string) : Prop :=
  s <> EmptyString /\ contains EQUALS s = false.

Definition entry_of (pair : string * string) : string :=
  fst pair ++ String EQUALS (snd pair).

(** ** The collaborators' data, as the script reads it *)

(** A gadget: the script reads [gadget.instructions] (only through
    [str]) and [gadget.offset] (a [str], concatenated as it is). *)
Record Gadget : Type := {
  instructions : list string;
  offset : string
}.

Section Driver.

(** Floating-point attributes are only ever rendered by the script, so
    their type is left open; [Formatting] collects the renderings. *)
Variable F : Type.

Record Formatting : Type := {
  str_float : F -> string;                    (* str(x)                 *)
  float_format : F -> string;                 (* "{:.2f}".format(x)     *)
  rate_format : F -> string;                  (* "{:.1%}".format(x)     *)
  fmt_percent_keep_precision : F -> string;   (* utility                *)
  str_instructions : list string -> string    (* str(gadget.instructions) *)
}.

Variable fmt : Formatting.

(** The attributes of a [GadgetSet] that the script reads. *)
Record GadgetSet : Type := {
  name : string;
  total_unique_gadgets : Z;
  ROPGadgets : list Gadget;
  JOPGadgets : list Gadget;
  COPGadgets : list Gadget;
  total_sp_gadgets : Z;
  SyscallGadgets : list Gadget;
  JOPDispatchers : list Gadget;
  JOPDataLoaders : list Gadget;
  JOPInitializers : list Gadget;
  JOPTrampolines : list Gadget;
  COPDispatchers : list Gadget;
  COPDataLoaders : list Gadget;
  COPInitializers : list Gadget;
  COPStrongTrampolines : list Gadget;
  COPIntrastackPivots : list Gadget;
  practical_ROP_expressivity : Z;
  practical_ASLR_ROP_expressivity : Z;
  turing_complete_ROP_expressivity : Z;
  total_functional_gadgets : Z;
  average_functional_quality : F;
  total_sp_types : Z;
  averageROPQuality : F;
  averageJOPQuality : F;
  averageCOPQuality : F;
  getFunction : string -> option string
}.

(** The attributes of a [GadgetStats] that the script reads. *)
Record GadgetStats : Type := {
  totalUniqueCountDiff : Z;
  totalUniqueCountReduction : F;
  ROPCountDiff : Z;
  ROPCountReduction : F;
  JOPCountDiff : Z;
  JOPCountReduction : F;
  COPCountDiff : Z;
  COPCountReduction : F;
  total_sp_count_diff : Z;
  total_sp_reduction : F;
  totalUniqueIntroductionRate : F;
  ROPIntroductionRate : F;
  JOPIntroductionRate : F;
  COPIntroductionRate : F;
  SysCountDiff : Z;
  SysCountReduction : F;
  JOPDispatchersCountDiff : Z;
  JOPDispatchersCountReduction : F;
  JOPDataLoadersCountDiff : Z;
  JOPDataLoadersCountReduction : F;
  JOPInitializersCountDiff : Z;
  JOPInitializersCountReduction : F;
  JOPTrampolinesCountDiff : Z;
  JOPTrampolinesCountReduction : F;
  COPDispatchersCountDiff : Z;
  COPDispatchersCountReduction : F;
  COPDataLoadersCountDiff : Z;
  COPDataLoadersCountReduction : F;
  COPInitializersCountDiff : Z;
  COPInitializersCountReduction : F;
  COPStrongTrampolinesCountDiff : Z;
  COPStrongTrampolinesCountReduction : F;
  COPIntrastackPivotsCountDiff : Z;
  COPIntrastackPivotsCountReduction : F;
  SysIntroductionRate : F;
  JOPDispatchersIntroductionRate : F;
  JOPDataLoadersIntroductionRate : F;
  JOPInitializersIntroductionRate : F;
  JOPTrampolinesIntroductionRate : F;
  COPDispatchersIntroductionRate : F;
  COPDataLoadersIntroductionRate : F;
  COPInitializersIntroductionRate : F;
  COPStrongTrampolinesIntroductionRate : F;
  COPIntrastackPivotsIntroductionRate : F;
  practical_ROP_exp_diff : Z;
  practical_ASLR_ROP_exp_diff : Z;
  turing_complete_ROP_exp_diff : Z;
  gadgetLocality : F;
  keptQualityROPCountDiff : Z;
  averageROPQualityDiff : F;
  keptQualityJOPCountDiff : Z;
  averageJOPQualityDiff : F;
  keptQualityCOPCountDiff : Z;
  averageCOPQualityDiff : F;
  total_functional_count_diff : Z;
  total_average_quality_diff : F;
  total_sp_type_reduction : Z
}.

(** The environment of a run: the two constructors, which may raise,
    [utility.create_output_directory], which may raise, and the file
    system.  [open_w path] is what [open(path, "w")] raises, if anything
    ([None]: the file is opened, which creates or empties it).
    [writelines path lines] is what [file.writelines(lines)] or
    [file.close()] raises on the opened file, if anything, together with
    the lines that the file is left with.  Either may raise an [OSError]
    or something else: a line that the encoding of the file cannot hold
    makes [writelines] raise [UnicodeEncodeError], which is a
    [ValueError]. *)
Record Env : Type := {
  GadgetSet_init : string -> string -> bool -> bool -> exn + GadgetSet;
  GadgetStats_init : GadgetSet -> GadgetSet -> bool -> bool -> exn + GadgetStats;
  create_output_directory : string -> option bool -> exn + string;
  open_w : string -> option exn;
  writelines : string -> list string -> option (exn * list string)
}.

Variable env : Env.

(** ** Effects *)

(** What a run does that can be observed from outside, in order. *)
Inductive event : Type :=
| Print (line : string)
| NewGadgetSet (name filepath : string) (resolveAddresses console : bool)
| NewGadgetStats (original variant : string) (console locality : bool)
| CreateDir (prefix : string) (timestamp : option bool)
| WriteFile (path : string) (lines : list string).

(** A computation extends the trace and either returns or raises.  The
    trace survives a raise: what was printed or written stays. *)
Definition M (A : Type) : Type := list event -> list event * (exn + A).

Definition ret {A : Type} (a : A) : M A := fun tr => (tr, inr a).

Definition bind {A B : Type} (m : M A) (k : A -> M B) : M B :=
  fun tr =>
    match m tr with
    | (tr', inl e) => (tr', inl e)
    | (tr', inr a) => k a tr'
    end.

Definition raise {A : Type} (e : exn) : M A := fun tr => (tr, inl e).

Definition emit (ev : event) : M unit := fun tr => ((tr ++ [ev])%list, inr tt).

Definition lift {A : Type} (r : exn + A) : M A := fun tr => (tr, r).

(** [try: body except OSError as osErr: handler(osErr)]. *)
Definition try_except_OSError {A : Type} (body : M A) (handler : oserror -> M A) : M A :=
  fun tr =>
    match body tr with
    | (tr', inl (OSError e)) => handler e tr'
    | r => r
    end.

Notation "x <- m ;; k" := (bind m (fun x => k))
  (at level 61, m at next level, right associativity).
Notation "m ;;; k" := (bind m (fun _ => k))
  (at level 61, right associativity).

Definition print (line : string) : M unit := emit (Print line).

(** The diagnostic of line 51. *)
Definition diagnostic : event := Print "Error: variants are not in proper format".

(** ** Lines 47-53: the variants dictionary *)

(** The test of line 50.  [or] evaluates left to right and stops at the
    first true operand, so [parts[0]] and [parts[1]] are only read when
    [len(parts) = 2]. *)
Definition improper (parts : list string) : bool :=
  negb (Nat.eqb (List.length parts) 2)
  || not_str (item parts 0)
  || not_str (item parts 1).

Fixpoint fill_variants_dict (vs : list string) (variants_dict : dict) : M dict :=
  match vs with
  | [] => ret variants_dict
  | variant :: rest =>
      let parts := split EQUALS variant in
      if improper parts then
        print "Error: variants are not in proper format" ;;;
        raise (SystemExit (Code 1))
      else
        fill_variants_dict rest (setitem variants_dict (item parts 0) (item parts 1))
  end.

(** [for variant in args.variants] on [None] raises [TypeError]. *)
Definition build_variants_dict (args : Namespace) : M dict :=
  match variants args with
  | None => raise (TypeError "'NoneType' object is not iterable")
  | Some vs => fill_variants_dict vs []
  end.

(** ** Lines 86-187: headers and the original's rows *)

(** The line lists that the script grows while it runs.  In simple mode
    only [simple_lines] exists, otherwise only the others; each branch
    reads the lists of its own mode, so a list of the other mode is never
    looked at and is kept empty here. *)
Record Lines : Type := {
  simple_lines : list string;
  file_1_lines : list string;
  file_2_lines : list string;
  file_3_lines : list string;
  file_4_lines : list string;
  file_5_lines : list string;
  file_6_lines : list string;
  file_7_lines : list string;
  file_8_lines : list string;
  table_lines : list string
}.

Definition no_lines : Lines :=
  {| simple_lines := []; file_1_lines := []; file_2_lines := [];
     file_3_lines := []; file_4_lines := []; file_5_lines := [];
     file_6_lines := []; file_7_lines := []; file_8_lines := [];
     table_lines := [] |}.

Definition tables_requested (args : Namespace) : bool :=
  negb (String.eqb (output_tables args) EmptyString).

Definition simple_header : string :=
  "Variant Name,Expressivity,Quality,Locality,S.P. Types,Syscall Available" ++ LINE_SEP.

Definition simple_original (original : GadgetSet) : string :=
  name original ++ "," ++ str (practical_ROP_expressivity original) ++ ","
  ++ float_format fmt (average_functional_quality original) ++ ","
  ++ "NA,"
  ++ str (total_sp_types original) ++ ","
  ++ str (len (SyscallGadgets original)) ++ LINE_SEP.

Definition file_1_header : string :=
  "Package Variant,Total Gadgets,ROP Gadgets,JOP Gadgets,COP Gadgets,Special Purpose Gadgets" ++ LINE_SEP.

Definition file_1_original (original : GadgetSet) : string :=
  name original ++ "," ++ str (total_unique_gadgets original)
  ++ "," ++ str (len (ROPGadgets original))
  ++ "," ++ str (len (JOPGadgets original))
  ++ "," ++ str (len (COPGadgets original))
  ++ "," ++ str (total_sp_gadgets original) ++ LINE_SEP.

Definition file_2_header : string :=
  "Package Variant,Total Gadgets,Total Introduction Rate,ROP Gadgets,ROP Introduction Rate,JOP Gadgets,JOP Introduction Rate,COP Gadgets,COP Introduction Rate" ++ LINE_SEP.

Definition file_2_original (original : GadgetSet) : string :=
  name original ++ "," ++ str (total_unique_gadgets original) ++ ", ,"
  ++ str (len (ROPGadgets original)) ++ ", ,"
  ++ str (len (JOPGadgets original)) ++ ", ,"
  ++ str (len (COPGadgets original)) ++ LINE_SEP.

Definition file_3_header : string :=
  "Package Variant,Syscall Gadgets,JOP Dispatcher Gadgets,JOP Dataloader Gadgets,JOP Initializers,JOP Trampolines,COP Dispatcher Gadgets,COP Dataloader Gadgets,COP Initializers,COP Strong Trampoline Gadgets,COP Intra-stack Pivot Gadgets" ++ LINE_SEP.

Definition file_3_original (original : GadgetSet) : string :=
  name original ++ "," ++ str (len (SyscallGadgets original))
  ++ "," ++ str (len (JOPDispatchers original))
  ++ "," ++ str (len (JOPDataLoaders original))
  ++ "," ++ str (len (JOPInitializers original))
  ++ "," ++ str (len (JOPTrampolines original))
  ++ "," ++ str (len (COPDispatchers original))
  ++ "," ++ str (len (COPDataLoaders original))
  ++ "," ++ str (len (COPInitializers original))
  ++ "," ++ str (len (COPStrongTrampolines original))
  ++ "," ++ str (len (COPIntrastackPivots original)) ++ LINE_SEP.

Definition file_4_header : string :=
  "Package Variant,Syscall Gadgets,Syscall Gadget Introduction Rate,"
  ++ "JOP Dispatcher Gadgets,JOP Dispatcher Gadget Introduction Rate,"
  ++ "JOP Dataloader Gadgets,JOP Dataloader Gadget Introduction Rate,"
  ++ "JOP Initializer Gadgets,JOP Initializer Gadget Introduction Rate,"
  ++ "JOP Trampoline Gadgets,JOP Trampoline Gadget Introduction Rate,"
  ++ "COP Dispatcher Gadgets,COP Dispatcher Gadget Introduction Rate,"
  ++ "COP Dataloader Gadgets,COP Dataloader Gadget Introduction Rate,"
  ++ "COP Initializer Gadgets,COP Initializer Gadget Introduction Rate,"
  ++ "COP Strong Trampoline Gadgets,COP Strong Trampoline Gadget Introduction Rate,"
  ++ "COP Intra-stack Pivot Gadgets,COP Intra-stack Pivot Gadget Introduction Rate" ++ LINE_SEP.

Definition file_4_original (original : GadgetSet) : string :=
  name original ++ "," ++ str (len (SyscallGadgets original)) ++ ", ,"
  ++ str (len (JOPDispatchers original)) ++ ", ,"
  ++ str (len (JOPDataLoaders original)) ++ ", ,"
  ++ str (len (JOPInitializers original)) ++ ", ,"
  ++ str (len (JOPTrampolines original)) ++ ", ,"
  ++ str (len (COPDispatchers original)) ++ ", ,"
  ++ str (len (COPDataLoaders original)) ++ ", ,"
  ++ str (len (COPInitializers original)) ++ ", ,"
  ++ str (len (COPStrongTrampolines original)) ++ ", ,"
  ++ str (len (COPIntrastackPivots original)) ++ LINE_SEP.

Definition file_5_header : string :=
  "Package Variant,Practical ROP Exploit,ASLR-Proof Practical ROP Exploit,Simple Turing Completeness" ++ LINE_SEP.

Definition file_5_original (original : GadgetSet) : string :=
  let orig_prac_rop := str (practical_ROP_expressivity original) ++ " of 11" in
  let orig_ASLR_prac_rop := str (practical_ASLR_ROP_expressivity original) ++ " of 35" in
  let orig_simple_tc := str (turing_complete_ROP_expressivity original) ++ " of 17" in
  name original ++ ","
  ++ orig_prac_rop ++ ","
  ++ orig_ASLR_prac_rop ++ ","
  ++ orig_simple_tc ++ LINE_SEP.

Definition file_6_header : string :=
  "Package Variant,Gadget Locality" ++ LINE_SEP.

Definition file_7_header : string :=
  "Package Variant,Quality ROP Gadgets,Average ROP Gadget Quality,Quality JOP Gadgets,Average JOP Gadget Quality,Quality COP Gadgets,Average COP Gadget Quality" ++ LINE_SEP.

Definition file_7_original (original : GadgetSet) : string :=
  name original ++ "," ++ str (len (ROPGadgets original)) ++ "," ++ str_float fmt (averageROPQuality original)
  ++ "," ++ str (len (JOPGadgets original)) ++ "," ++ str_float fmt (averageJOPQuality original)
  ++ "," ++ str (len (COPGadgets original)) ++ "," ++ str_float fmt (averageCOPQuality original) ++ LINE_SEP.

(** Lines 181-187: [table_lines] starts as four empty strings and gets
    the original's cells when a row label was given. *)
Definition table_original (args : Namespace) (original : GadgetSet) : list string :=
  if tables_requested args then
    [ output_tables args ++ " & " ++ str (total_unique_gadgets original);
      output_tables args ++ " & " ++ str (practical_ROP_expressivity original) ++ "/"
        ++ str (practical_ASLR_ROP_expressivity original) ++ "/"
        ++ str (turing_complete_ROP_expressivity original);
      output_tables args ++ " & " ++ str (total_functional_gadgets original) ++ " / "
        ++ float_format fmt (average_functional_quality original);
      output_tables args ++ " & " ++ str (total_sp_types original) ]
  else [EmptyString; EmptyString; EmptyString; EmptyString].

Definition when (b : bool) (m : M unit) : M unit := if b then m else ret tt.

Definition prepare_lines (args : Namespace) (original : GadgetSet) : M Lines :=
  if output_simple args then
    ret {| simple_lines := [simple_header; simple_original original];
           file_1_lines := []; file_2_lines := []; file_3_lines := [];
           file_4_lines := []; file_5_lines := []; file_6_lines := [];
           file_7_lines := []; file_8_lines := []; table_lines := [] |}
  else
    when (output_addresses args)
      (print "Writing function names associated with special purpose gadgets to disk.") ;;;
    when (tables_requested args)
      (print "Writing LaTeX formatted table data to disk.") ;;;
    ret {| simple_lines := [];
           file_1_lines := [file_1_header; file_1_original original];
           file_2_lines := [file_2_header; file_2_original original];
           file_3_lines := [file_3_header; file_3_original original];
           file_4_lines := [file_4_header; file_4_original original];
           file_5_lines := [file_5_header; file_5_original original];
           file_6_lines := [file_6_header];
           file_7_lines := [file_7_header; file_7_original original];
           file_8_lines := [];
           table_lines := table_original args original |}.

(** ** Lines 197-320: one variant's rows *)

Definition simple_variant (variant : GadgetSet) (stat : GadgetStats) : string :=
  name variant ++ "," ++ str (practical_ROP_exp_diff stat) ++ ","
  ++ float_format fmt (total_average_quality_diff stat) ++ ","
  ++ fmt_percent_keep_precision fmt (gadgetLocality stat) ++ ","
  ++ str (total_sp_type_reduction stat) ++ ","
  ++ str (SysCountDiff stat) ++ LINE_SEP.

Definition file_1_variant (variant : GadgetSet) (stat : GadgetStats) : string :=
  name variant ++ "," ++ str (total_unique_gadgets variant) ++ " (" ++ str (totalUniqueCountDiff stat) ++ "; " ++ rate_format fmt (totalUniqueCountReduction stat) ++ "),"
  ++ str (len (ROPGadgets variant)) ++ " (" ++ str (ROPCountDiff stat) ++ "; " ++ rate_format fmt (ROPCountReduction stat) ++ "),"
  ++ str (len (JOPGadgets variant)) ++ " (" ++ str (JOPCountDiff stat) ++ "; " ++ rate_format fmt (JOPCountReduction stat) ++ "),"
  ++ str (len (COPGadgets variant)) ++ " (" ++ str (COPCountDiff stat) ++ "; " ++ rate_format fmt (COPCountReduction stat) ++ "),"
  ++ str (total_sp_gadgets variant) ++ " (" ++ str (total_sp_count_diff stat) ++ "; " ++ rate_format fmt (total_sp_reduction stat) ++ ")" ++ LINE_SEP.

Definition file_2_variant (variant : GadgetSet) (stat : GadgetStats) : string :=
  name variant ++ "," ++ str (total_unique_gadgets variant) ++ ","
  ++ rate_format fmt (totalUniqueIntroductionRate stat) ++ ","
  ++ str (len (ROPGadgets variant)) ++ ","
  ++ rate_format fmt (ROPIntroductionRate stat) ++ ","
  ++ str (len (JOPGadgets variant)) ++ ","
  ++ rate_format fmt (JOPIntroductionRate stat) ++ ","
  ++ str (len (COPGadgets variant)) ++ ","
  ++ rate_format fmt (COPIntroductionRate stat) ++ LINE_SEP.

Definition file_3_variant (variant : GadgetSet) (stat : GadgetStats) : string :=
  name variant ++ "," ++ str (len (SyscallGadgets variant)) ++ " (" ++ str (SysCountDiff stat) ++ "; " ++ rate_format fmt (SysCountReduction stat) ++ "),"
  ++ str (len (JOPDispatchers variant)) ++ " (" ++ str (JOPDispatchersCountDiff stat) ++ "; " ++ rate_format fmt (JOPDispatchersCountReduction stat) ++ "),"
  ++ str (len (JOPDataLoaders variant)) ++ " (" ++ str (JOPDataLoadersCountDiff stat) ++ "; " ++ rate_format fmt (JOPDataLoadersCountReduction stat) ++ "),"
  ++ str (len (JOPInitializers variant)) ++ " (" ++ str (JOPInitializersCountDiff stat) ++ "; " ++ rate_format fmt (JOPInitializersCountReduction stat) ++ "),"
  ++ str (len (JOPTrampolines variant)) ++ " (" ++ str (JOPTrampolinesCountDiff stat) ++ "; " ++ rate_format fmt (JOPTrampolinesCountReduction stat) ++ "),"
  ++ str (len (COPDispatchers variant)) ++ " (" ++ str (COPDispatchersCountDiff stat) ++ "; " ++ rate_format fmt (COPDispatchersCountReduction stat) ++ "),"
  ++ str (len (COPDataLoaders variant)) ++ " (" ++ str (COPDataLoadersCountDiff stat) ++ "; " ++ rate_format fmt (COPDataLoadersCountReduction stat) ++ "),"
  ++ str (len (COPInitializers variant)) ++ " (" ++ str (COPInitializersCountDiff stat) ++ "; " ++ rate_format fmt (COPInitializersCountReduction stat) ++ "),"
  ++ str (len (COPStrongTrampolines variant)) ++ " (" ++ str (COPStrongTrampolinesCountDiff stat) ++ "; " ++ rate_format fmt (COPStrongTrampolinesCountReduction stat) ++ "),"
  ++ str (len (COPIntrastackPivots variant)) ++ " (" ++ str (COPIntrastackPivotsCountDiff stat) ++ "; " ++ rate_format fmt (COPIntrastackPivotsCountReduction stat) ++ ")" ++ LINE_SEP.

Definition file_4_variant (variant : GadgetSet) (stat : GadgetStats) : string :=
  name variant ++ "," ++ str (len (SyscallGadgets variant)) ++ ","
  ++ rate_format fmt (SysIntroductionRate stat) ++ ","
  ++ str (len (JOPDispatchers variant)) ++ ","
  ++ rate_format fmt (JOPDispatchersIntroductionRate stat) ++ ","
  ++ str (len (JOPDataLoaders variant)) ++ ","
  ++ rate_format fmt (JOPDataLoadersIntroductionRate stat) ++ ","
  ++ str (len (JOPInitializers variant)) ++ ","
  ++ rate_format fmt (JOPInitializersIntroductionRate stat) ++ ","
  ++ str (len (JOPTrampolines variant)) ++ ","
  ++ rate_format fmt (JOPTrampolinesIntroductionRate stat) ++ ","
  ++ str (len (COPDispatchers variant)) ++ ","
  ++ rate_format fmt (COPDispatchersIntroductionRate stat) ++ ","
  ++ str (len (COPDataLoaders variant)) ++ ","
  ++ rate_format fmt (COPDataLoadersIntroductionRate stat) ++ ","
  ++ str (len (COPInitializers variant)) ++ ","
  ++ rate_format fmt (COPInitializersIntroductionRate stat) ++ ","
  ++ str (len (COPStrongTrampolines variant)) ++ ","
  ++ rate_format fmt (COPStrongTrampolinesIntroductionRate stat) ++ ","
  ++ str (len (COPIntrastackPivots variant)) ++ ","
  ++ rate_format fmt (COPIntrastackPivotsIntroductionRate stat) ++ LINE_SEP.

Definition file_5_variant (variant : GadgetSet) (stat : GadgetStats) : string :=
  name variant ++ "," ++ str (practical_ROP_expressivity variant) ++ " (" ++ str (practical_ROP_exp_diff stat) ++ "),"
  ++ str (practical_ASLR_ROP_expressivity variant) ++ " (" ++ str (practical_ASLR_ROP_exp_diff stat) ++ "),"
  ++ str (turing_complete_ROP_expressivity variant) ++ " (" ++ str (turing_complete_ROP_exp_diff stat) ++ ")" ++ LINE_SEP.

Definition file_6_variant (variant : GadgetSet) (stat : GadgetStats) : string :=
  name variant ++ "," ++ fmt_percent_keep_precision fmt (gadgetLocality stat) ++ LINE_SEP.

Definition file_7_variant (variant : GadgetSet) (stat : GadgetStats) : string :=
  name variant ++ "," ++ str (len (ROPGadgets variant)) ++ " (" ++ str (keptQualityROPCountDiff stat) ++ "),"
  ++ str_float fmt (averageROPQuality variant) ++ " (" ++ str_float fmt (averageROPQualityDiff stat) ++ "),"
  ++ str (len (JOPGadgets variant)) ++ " (" ++ str (keptQualityJOPCountDiff stat) ++ "),"
  ++ str_float fmt (averageJOPQuality variant) ++ " (" ++ str_float fmt (averageJOPQualityDiff stat) ++ "),"
  ++ str (len (COPGadgets variant)) ++ " (" ++ str (keptQualityCOPCountDiff stat) ++ "),"
  ++ str_float fmt (averageCOPQuality variant) ++ " (" ++ str_float fmt (averageCOPQualityDiff stat) ++ ")" ++ LINE_SEP.

(** Lines 294-311.  The sets walked are the variant's own ten
    special-purpose sets, in this order. *)
Definition specialSets (variant : GadgetSet) : list (list Gadget) :=
  [ SyscallGadgets variant; JOPDispatchers variant;
    JOPDataLoaders variant; JOPInitializers variant;
    JOPTrampolines variant; COPDispatchers variant;
    COPDataLoaders variant; COPInitializers variant;
    COPStrongTrampolines variant; COPIntrastackPivots variant ].

Definition gadget_lines (variant : GadgetSet) (gadget : Gadget) : list string :=
  [ "Gadget: " ++ str_instructions fmt (instructions gadget) ++ LINE_SEP;
    "Found at offset: " ++ offset gadget ++ LINE_SEP;
    match getFunction variant (offset gadget) with
    | None => "No associated function found." ++ LINE_SEP
    | Some function => "Most likely location in source code: " ++ function ++ LINE_SEP
    end ].

Definition file_8_variant (variant : GadgetSet) : list string :=
  let first_line := "Sensitive gadgets introduced in variant: " ++ name variant ++ LINE_SEP in
  let last_line := "----------------------------------------------------------" ++ LINE_SEP in
  ([first_line]
   ++ flat_map (fun specialSet => flat_map (gadget_lines variant) specialSet)
               (specialSets variant)
   ++ [last_line])%list.

Definition table_variant (table_lines : list string)
                         (variant : GadgetSet) (stat : GadgetStats) : list string :=
  [ item table_lines 0 ++ " & " ++ str (total_unique_gadgets variant) ++ " (" ++ rate_format fmt (totalUniqueIntroductionRate stat) ++ ")";
    item table_lines 1 ++ " & " ++ str (practical_ROP_expressivity variant) ++ "/" ++ str (practical_ASLR_ROP_expressivity variant) ++ "/" ++ str (turing_complete_ROP_expressivity variant) ++ " & ("
      ++ str (practical_ROP_exp_diff stat) ++ "/" ++ str (practical_ASLR_ROP_exp_diff stat) ++ "/" ++ str (turing_complete_ROP_exp_diff stat) ++ ")";
    item table_lines 2 ++ " & " ++ str (total_functional_gadgets variant) ++ " / " ++ float_format fmt (average_functional_quality variant) ++ " & ("
      ++ str (total_functional_count_diff stat) ++ " / " ++ float_format fmt (total_average_quality_diff stat) ++ ")";
    item table_lines 3 ++ " & " ++ str (total_sp_types variant) ++ " & (" ++ str (total_sp_type_reduction stat) ++ ")" ].

(** [l.append(x)], and a run of appends under [if b:]. *)
Definition append (l : list string) (x : string) : list string := (l ++ [x])%list.

Definition append_if (b : bool) (l more : list string) : list string :=
  if b then (l ++ more)%list else l.

Definition add_variant_lines (args : Namespace) (variant : GadgetSet)
                             (stat : GadgetStats) (L : Lines) : Lines :=
  if output_simple args then
    {| simple_lines := append (simple_lines L) (simple_variant variant stat);
       file_1_lines := file_1_lines L; file_2_lines := file_2_lines L;
       file_3_lines := file_3_lines L; file_4_lines := file_4_lines L;
       file_5_lines := file_5_lines L; file_6_lines := file_6_lines L;
       file_7_lines := file_7_lines L; file_8_lines := file_8_lines L;
       table_lines := table_lines L |}
  else
    {| simple_lines := simple_lines L;
       file_1_lines := append (file_1_lines L) (file_1_variant variant stat);
       file_2_lines := append (file_2_lines L) (file_2_variant variant stat);
       file_3_lines := append (file_3_lines L) (file_3_variant variant stat);
       file_4_lines := append (file_4_lines L) (file_4_variant variant stat);
       file_5_lines := append (file_5_lines L) (file_5_variant variant stat);
       file_6_lines := append_if (output_locality args) (file_6_lines L)
                                 [file_6_variant variant stat];
       file_7_lines := append (file_7_lines L) (file_7_variant variant stat);
       file_8_lines := append_if (output_addresses args) (file_8_lines L)
                                 (file_8_variant variant);
       table_lines := if tables_requested args
                      then table_variant (table_lines L) variant stat
                      else table_lines L |}.

(** ** Lines 55-69 and 189-195: constructing and comparing *)

Definition new_GadgetSet (name filepath : string) (resolveAddresses console : bool)
  : M GadgetSet :=
  emit (NewGadgetSet name filepath resolveAddresses console) ;;;
  lift (GadgetSet_init env name filepath resolveAddresses console).

Definition new_GadgetStats (original variant : GadgetSet) (console locality : bool)
  : M GadgetStats :=
  emit (NewGadgetStats (name original) (name variant) console locality) ;;;
  lift (GadgetStats_init env original variant console locality).

(** [variants_dict.get(key)] gives [None] for a missing key, and the
    concatenation of the next line then raises. *)
Definition get_filepath (variants_dict : dict) (key : string) : M string :=
  match get variants_dict key with
  | Some filepath => ret filepath
  | None => raise (TypeError str_plus_None)
  end.

(** The four statements with which the body of either loop starts
    (lines 64-68 and 191-195). *)
Definition analyze_variant (args : Namespace) (variants_dict : dict)
                           (original : GadgetSet) (key : string)
  : M (GadgetSet * GadgetStats) :=
  filepath <- get_filepath variants_dict key ;;
  print ("Analyzing variant package [" ++ key ++ "] located at: " ++ filepath) ;;;
  variant <- new_GadgetSet key filepath (output_addresses args) (output_console args) ;;
  stat <- new_GadgetStats original variant (output_console args) (output_locality args) ;;
  ret (variant, stat).

(** [for x in l: s = body(x, s)]: an exception raised by the body leaves
    the loop and is not caught. *)
Fixpoint for_each {A S : Type} (l : list A) (body : A -> S -> M S) (s : S) : M S :=
  match l with
  | [] => ret s
  | x :: rest => s' <- body x s ;; for_each rest body s'
  end.

(** Lines 61-68: console mode. *)
Definition console_mode (args : Namespace) (variants_dict : dict)
                        (original : GadgetSet) : M unit :=
  for_each (keys variants_dict)
    (fun key _ => analyze_variant args variants_dict original key ;;; ret tt) tt.

(** ** Lines 72-81: the results directory *)

(** The arguments of the call of [create_output_directory]: the second
    one is left to its default (line 75) or is [False] (line 77). *)
Definition directory_request (args : Namespace) : string * option bool :=
  match result_folder_name args with
  | None => ("results/analyzer_results_", None)
  | Some folder => ("results/" ++ folder, Some false)
  end.

Definition make_directory (args : Namespace) : M string :=
  let request := directory_request args in
  emit (CreateDir (fst request) (snd request)) ;;;
  lift (create_output_directory env (fst request) (snd request)).

Definition directory_failed {A : Type} (osErr : oserror) : M A :=
  match strerror osErr with
  | Some text =>
      print ("An OS Error occurred during creation of results directory: " ++ text) ;;;
      raise (SystemExit (Message "Results cannot be logged, aborting operation..."))
  | None => raise (TypeError str_plus_None)
  end.

(** ** Lines 322-382: writing *)

(** [file = open(path, "w"); file.writelines(lines); file.close()].
    When [open] raises, no file is touched.  When a later call raises,
    the file exists with what had reached it, and the exception goes
    on. *)
Definition write_file (path : string) (lines : list string) : M unit :=
  match open_w env path with
  | Some e => raise e
  | None =>
      match writelines env path lines with
      | Some (e, kept) => emit (WriteFile path kept) ;;; raise e
      | None => emit (WriteFile path lines)
      end
  end.

Definition close_rows (table_lines : list string) : list string :=
  [ item table_lines 0 ++ " \\ " ++ LINE_SEP;
    item table_lines 1 ++ " \\ " ++ LINE_SEP;
    item table_lines 2 ++ " \\ " ++ LINE_SEP;
    item table_lines 3 ++ " \\ " ++ LINE_SEP ].

Definition write_all (args : Namespace) (directory_name : string) (L : Lines) : M unit :=
  if output_simple args then
    write_file (directory_name ++ "/GadgetSetAnalysis.csv") (simple_lines L)
  else
    write_file (directory_name ++ "/GadgetCounts_Reduction.csv") (file_1_lines L) ;;;
    write_file (directory_name ++ "/Gadget_Introduction_Counts_Rate.csv") (file_2_lines L) ;;;
    write_file (directory_name ++ "/SpecialPurpose_GadgetCounts_Reduction.csv") (file_3_lines L) ;;;
    write_file (directory_name ++ "/SpecialPurpose_Gadget_Introduction_Counts_Rate.csv") (file_4_lines L) ;;;
    write_file (directory_name ++ "/Expressivity_Counts.csv") (file_5_lines L) ;;;
    when (output_locality args)
      (write_file (directory_name ++ "/Gadget Locality.csv") (file_6_lines L)) ;;;
    write_file (directory_name ++ "/Gadget Quality.csv") (file_7_lines L) ;;;
    when (output_addresses args)
      (write_file (directory_name ++ "/Likely_Gadget_Locations.txt") (file_8_lines L)) ;;;
    when (tables_requested args)
      (write_file (directory_name ++ "/Table_Formatted.txt") (close_rows (table_lines L))).

Definition write_reports (args : Namespace) (directory_name : string) (L : Lines) : M unit :=
  try_except_OSError (write_all args directory_name L)
                     (fun osErr => print (os_str osErr)).

(** ** Lines 70-382: file-report mode *)

Definition metrics_mode (args : Namespace) (variants_dict : dict)
                        (original : GadgetSet) : M unit :=
  directory_name <- try_except_OSError (make_directory args) directory_failed ;;
  print ("Writing metrics files to " ++ directory_name) ;;;
  L0 <- prepare_lines args original ;;
  L <- for_each (keys variants_dict)
         (fun key L =>
            vs <- analyze_variant args variants_dict original key ;;
            ret (add_variant_lines args (fst vs) (snd vs) L))
         L0 ;;
  write_reports args directory_name L.

(** ** The script *)

(** Line 61: [if not args.output_metrics: ... else: ...]. *)
Definition after_original (args : Namespace) (variants_dict : dict)
                          (original : GadgetSet) : M unit :=
  if negb (output_metrics args) then console_mode args variants_dict original
  else metrics_mode args variants_dict original.

Definition script (parsed : Namespace) : M unit :=
  let args := enable_locality parsed in
  variants_dict <- build_variants_dict args ;;
  print "Starting Gadget Set Analyzer" ;;;
  print ("Analyzing original package [" ++ original_name args ++ "] located at: "
         ++ original args) ;;;
  original <- new_GadgetSet (original_name args) (original args) false (output_console args) ;;
  after_original args variants_dict original.

(** The three events of lines 55-59, which every run that gets past the
    variants dictionary starts with. *)
Definition opening (args : Namespace) : list event :=
  [ Print "Starting Gadget Set Analyzer";
    Print ("Analyzing original package [" ++ original_name args ++ "] located at: "
           ++ original args);
    NewGadgetSet (original_name args) (original args) false (output_console args) ].

(** A run starts with nothing observed. *)
Definition run (parsed : Namespace) : list event * (exn + unit) := script parsed [].

(** ** The write phase as a list of files *)

(** The files that lines 324-380 write, in order, with their lines. *)
Definition planned_files (args : Namespace) (directory_name : string) (L : Lines)
  : list (string * list string) :=
  if output_simple args then
    [((directory_name ++ "/GadgetSetAnalysis.csv")%string, simple_lines L)]
  else
    ([((directory_name ++ "/GadgetCounts_Reduction.csv")%string, file_1_lines L);
      ((directory_name ++ "/Gadget_Introduction_Counts_Rate.csv")%string, file_2_lines L);
      ((directory_name ++ "/SpecialPurpose_GadgetCounts_Reduction.csv")%string, file_3_lines L);
      ((directory_name ++ "/SpecialPurpose_Gadget_Introduction_Counts_Rate.csv")%string, file_4_lines L);
      ((directory_name ++ "/Expressivity_Counts.csv")%string, file_5_lines L)]
     ++ (if output_locality args
         then [((directory_name ++ "/Gadget Locality.csv")%string, file_6_lines L)] else [])
     ++ [((directory_name ++ "/Gadget Quality.csv")%string, file_7_lines L)]
     ++ (if output_addresses args
         then [((directory_name ++ "/Likely_Gadget_Locations.txt")%string, file_8_lines L)] else [])
     ++ (if tables_requested args
         then [((directory_name ++ "/Table_Formatted.txt")%string, close_rows (table_lines L))]
         else []))%list.

(** Writing a list of files in order stops at the first one for which
    a call raises: the files before it (and what the failing file is
    left with, when it was opened), and the exception if there is one. *)
Fixpoint written (files : list (string * list string)) : list event * option exn :=
  match files with
  | [] => ([], None)
  | (path, lines) :: rest =>
      match open_w env path with
      | Some e => ([], Some e)
      | None =>
          match writelines env path lines with
          | Some (e, kept) => ([WriteFile path kept], Some e)
          | None => (WriteFile path lines :: fst (written rest), snd (written rest))
          end
      end
  end.

(** Lines 381-382: an [OSError] of the write phase is printed; any other
    exception is not caught there. *)
Definition error_line (failure : option exn) : list event :=
  match failure with
  | Some (OSError e) => [Print (os_str e)]
  | _ => []
  end.

Definition write_outcome (failure : option exn) : exn + unit :=
  match failure with
  | None => inr tt
  | Some (OSError _) => inr tt
  | Some e => inl e
  end.

(** ** Properties of traces, used to state facts about runs *)

(** [m] only adds events that satisfy [P], whatever the trace it starts
    from and whether it returns or raises. *)
Definition adds {A : Type} (P : event -> Prop) (m : M A) : Prop :=
  forall tr, exists more, fst (m tr) = (tr ++ more)%list /\ Forall P more.

(** The constructions of a [GadgetSet] in a trace, in order. *)
Definition is_construction (ev : event) : bool :=
  match ev with
  | NewGadgetSet _ _ _ _ => true
  | _ => false
  end.

Definition constructions (tr : list event) : list event := filter is_construction tr.

(** What may happen once the original's set exists: a variant's set is
    constructed with the flags of the command line, two sets are compared
    with the flags of the command line, lines are printed, the directory
    is created, files are written. *)
Definition later_event (args : Namespace) (ev : event) : Prop :=
  match ev with
  | NewGadgetSet _ _ resolveAddresses console =>
      resolveAddresses = output_addresses args /\ console = output_console args
  | NewGadgetStats _ _ console locality =>
      console = output_console args /\ locality = output_locality args
  | _ => True
  end.

(** What the phases around the loops may do: the parsing of the
    variants and the preparation of the lines print, the creation of the
    directory prints too, the write phase writes and prints. *)
Definition printing (ev : event) : Prop :=
  match ev with
  | Print _ => True
  | _ => False
  end.

Definition directory_event (ev : event) : Prop :=
  match ev with
  | Print _ | CreateDir _ _ => True
  | _ => False
  end.

Definition write_event (ev : event) : Prop :=
  match ev with
  | Print _ | WriteFile _ _ => True
  | _ => False
  end.

(** A construction that returned, and an event that is not a write. *)
Definition constructed (ev : event) : Prop :=
  match ev with
  | NewGadgetSet n filepath resolveAddresses console =>
      exists s, GadgetSet_init env n filepath resolveAddresses console = inr s
  | _ => True
  end.

Definition not_a_write (ev : event) : Prop :=
  match ev with
  | WriteFile _ _ => False
  | _ => True
  end.

Definition sound (ev : event) : Prop := constructed ev /\ not_a_write ev.

(** The state of a run cut short by a construction: the trace ends with
    the construction that raised, and [e] is what it raised. *)
Definition cut_short (tr : list event) (e : exn) : Prop :=
  exists before n filepath resolveAddresses console,
    tr = (before ++ [NewGadgetSet n filepath resolveAddresses console])%list
    /\ Forall sound before
    /\ GadgetSet_init env n filepath resolveAddresses console = inl e.

(** [m], started where every construction so far has returned and nothing
    has been written, either keeps that state or is cut short by a
    construction whose exception it lets through. *)
Definition analysis {A : Type} (m : M A) : Prop :=
  forall tr, Forall sound tr ->
    Forall sound (fst (m tr))
    \/ exists e, snd (m tr) = inl e /\ cut_short (fst (m tr)) e.

(** The same for a whole run, in which files may be written once the
    analysis is over. *)
Definition settled {A : Type} (m : M A) : Prop :=
  forall tr, Forall sound tr ->
    Forall constructed (fst (m tr))
    \/ exists e, snd (m tr) = inl e /\ cut_short (fst (m tr)) e.

End Driver.

Arguments Build_Formatting {F}.
Arguments str_float {F}.
Arguments float_format {F}.
Arguments rate_format {F}.
Arguments fmt_percent_keep_precision {F}.
Arguments str_instructions {F}.
Arguments name {F}.
Arguments SyscallGadgets {F}.
Arguments getFunction {F}.
Arguments GadgetSet_init {F}.
Arguments GadgetStats_init {F}.
Arguments create_output_directory {F}.
Arguments open_w {F}.
Arguments writelines {F}.
Arguments specialSets {F}.
Arguments gadget_lines {F}.
Arguments file_8_variant {F}.
Arguments add_variant_lines {F}.
Arguments prepare_lines {F}.
Arguments new_GadgetSet {F}.
Arguments new_GadgetStats {F}.
Arguments analyze_variant {F}.
Arguments console_mode {F}.
Arguments make_directory {F}.
Arguments write_file {F}.
Arguments write_all {F}.
Arguments write_reports {F}.
Arguments metrics_mode {F}.
Arguments after_original {F}.
Arguments script {F}.
Arguments run {F}.
Arguments written {F}.
Arguments constructed {F}.
Arguments sound {F}.
Arguments cut_short {F}.
Arguments analysis {F} env {A}.
Arguments settled {F} env {A}.

End GSA.

(* ===================================================================== *)
(** * A small concrete world *)
(* ===================================================================== *)

(** Floats are kept as their printed text here, so every rendering is the
    identity.  One binary holds a single syscall gadget. *)
Module World.

Import Py GSA.

Definition fmt : Formatting string :=
  {| str_float := fun x => x;
     float_format := fun x => x;
     rate_format := fun x => x;
     fmt_percent_keep_precision := fun x => x;
     str_instructions := fun l => String.concat " ; " l |}.

Definition gadget_at (where_ : string) : Gadget :=
  {| instructions := ["pop rax"; "syscall"]; offset := where_ |}.

Definition binary (n : string) (syscalls : list Gadget) : GadgetSet string :=
  {| name := n;
     total_unique_gadgets := len syscalls;
     ROPGadgets := syscalls; JOPGadgets := []; COPGadgets := [];
     total_sp_gadgets := len syscalls;
     SyscallGadgets := syscalls;
     JOPDispatchers := []; JOPDataLoaders := []; JOPInitializers := [];
     JOPTrampolines := []; COPDispatchers := []; COPDataLoaders := [];
     COPInitializers := []; COPStrongTrampolines := []; COPIntrastackPivots := [];
     practical_ROP_expressivity := 0;
     practical_ASLR_ROP_expressivity := 0;
     turing_complete_ROP_expressivity := 0;
     total_functional_gadgets := 0;
     average_functional_quality := "0.00";
     total_sp_types := 1;
     averageROPQuality := "0.0"; averageJOPQuality := "0.0"; averageCOPQuality := "0.0";
     getFunction := fun _ => None |}.

Definition unchanged : GadgetStats string :=
  {| totalUniqueCountDiff := 0; totalUniqueCountReduction := "0.0%";
     ROPCountDiff := 0; ROPCountReduction := "0.0%";
     JOPCountDiff := 0; JOPCountReduction := "0.0%";
     COPCountDiff := 0; COPCountReduction := "0.0%";
     total_sp_count_diff := 0; total_sp_reduction := "0.0%";
     totalUniqueIntroductionRate := "0.0%"; ROPIntroductionRate := "0.0%";
     JOPIntroductionRate := "0.0%"; COPIntroductionRate := "0.0%";
     SysCountDiff := 0; SysCountReduction := "0.0%";
     JOPDispatchersCountDiff := 0; JOPDispatchersCountReduction := "0.0%";
     JOPDataLoadersCountDiff := 0; JOPDataLoadersCountReduction := "0.0%";
     JOPInitializersCountDiff := 0; JOPInitializersCountReduction := "0.0%";
     JOPTrampolinesCountDiff := 0; JOPTrampolinesCountReduction := "0.0%";
     COPDispatchersCountDiff := 0; COPDispatchersCountReduction := "0.0%";
     COPDataLoadersCountDiff := 0; COPDataLoadersCountReduction := "0.0%";
     COPInitializersCountDiff := 0; COPInitializersCountReduction := "0.0%";
     COPStrongTrampolinesCountDiff := 0; COPStrongTrampolinesCountReduction := "0.0%";
     COPIntrastackPivotsCountDiff := 0; COPIntrastackPivotsCountReduction := "0.0%";
     SysIntroductionRate := "0.0%";
     JOPDispatchersIntroductionRate := "0.0%"; JOPDataLoadersIntroductionRate := "0.0%";
     JOPInitializersIntroductionRate := "0.0%"; JOPTrampolinesIntroductionRate := "0.0%";
     COPDispatchersIntroductionRate := "0.0%"; COPDataLoadersIntroductionRate := "0.0%";
     COPInitializersIntroductionRate := "0.0%";
     COPStrongTrampolinesIntroductionRate := "0.0%";
     COPIntrastackPivotsIntroductionRate := "0.0%";
     practical_ROP_exp_diff := 0; practical_ASLR_ROP_exp_diff := 0;
     turing_complete_ROP_exp_diff := 0;
     gadgetLocality := "NA";
     keptQualityROPCountDiff := 0; averageROPQualityDiff := "0.0";
     keptQualityJOPCountDiff := 0; averageJOPQualityDiff := "0.0";
     keptQualityCOPCountDiff := 0; averageCOPQualityDiff := "0.0";
     total_functional_count_diff := 0; total_average_quality_diff := "0.00";
     total_sp_type_reduction := 0 |}.

Definition disk_full : oserror :=
  {| strerror := Some "No space left on device";
     os_str := "[Errno 28] No space left on device" |}.

Definition denied : oserror :=
  {| strerror := Some "Permission denied";
     os_str := "[Errno 13] Permission denied" |}.

(** The binary at path [bad] cannot be scanned; every other binary holds
    the same syscall gadget, found at the offset that is its path.  The
    directory [results/locked] cannot be created; in [results/full] the
    second report cannot be opened. *)
Definition env : Env string :=
  {| GadgetSet_init := fun n filepath _ _ =>
       if String.eqb filepath "bad" then inl (Failure "ScanError")
       else inr (binary n [gadget_at filepath]);
     GadgetStats_init := fun _ _ _ _ => inr unchanged;
     create_output_directory := fun prefix _ =>
       if String.eqb prefix "results/locked" then inl (OSError denied)
       else inr prefix;
     open_w := fun path =>
       if String.eqb path "results/full/Gadget_Introduction_Counts_Rate.csv"
       then Some (OSError disk_full) else None;
     writelines := fun _ _ => None |}.

Definition command (vs : option (list string)) (metrics addresses : bool)
                   (folder : option string) : Namespace :=
  {| original := "a.out";
     variants := vs;
     output_metrics := metrics;
     output_addresses := addresses;
     output_tables := EmptyString;
     result_folder_name := folder;
     original_name := "Original";
     output_console := false;
     output_locality := false;
     output_simple := false |}.

(** The command lines used below. *)
Definition with_simple (args : Namespace) : Namespace :=
  {| original := original args;
     variants := variants args;
     output_metrics := output_metrics args;
     output_addresses := output_addresses args;
     output_tables := output_tables args;
     result_folder_name := result_folder_name args;
     original_name := original_name args;
     output_console := output_console args;
     output_locality := output_locality args;
     output_simple := true |}.

End World.

(* ===================================================================== *)
(** * Identity of gadgets *)
(* ===================================================================== *)

(** [static_analyzer/Gadget.py] and [static_analyzer/GadgetStats.py] are
    not part of the sources at hand.  What it means for a variant to
    introduce a gadget is taken from the specification of the
    comparison, and only used to say that a variant introduces
    nothing. *)
Module Stats.

Import GSA.

(** Modelled from the spec: identity is content-based: "two gadgets are
    the same gadget if their normalized instruction sequences are equal,
    regardless of offset or binary". *)
Definition same_gadget (g h : Gadget) : bool :=
  if list_eq_dec string_dec (instructions g) (instructions h) then true else false.

(** Modelled from the spec: membership of a gadget in a collection "by
    content identity". *)
Definition member (g : Gadget) (l : list Gadget) : bool := existsb (same_gadget g) l.

(** Modelled from the spec: a collection "deduplicated by content
    identity": one gadget is kept for each instruction sequence. *)
Fixpoint distinct (l : list Gadget) : list Gadget :=
  match l with
  | [] => []
  | g :: rest => if member g rest then distinct rest else g :: distinct rest
  end.

(** Modelled from the spec: [A \ B], the gadgets of [A] "absent from"
    [B] by content identity. *)
Definition minus (A B : list Gadget) : list Gadget :=
  filter (fun g => negb (member g B)) (distinct A).

End Stats.

(* ===================================================================== *)
(** * Runs in which nothing raises *)
(* ===================================================================== *)

(** The script as a function: which entries it accepts, and what it
    prints, constructs and writes when every collaborator returns. *)
Module Runs.

Import Py GSA.

(** An entry [NAME=PATH] whose name and path are not empty and hold no
    [=] themselves. *)
Definition well_formed (entry : string) : Prop :=
  exists name path,
    entry = entry_of (name, path) /\ proper_part name /\ proper_part path.

(** The key and the value that line 53 assigns for an entry. *)
Definition assignment (entry : string) : string * string :=
  (item (split EQUALS entry) 0, item (split EQUALS entry) 1).

(** Events that touch the file system. *)
Definition no_file_system (ev : event) : Prop :=
  match ev with
  | CreateDir _ _ | WriteFile _ _ => False
  | _ => True
  end.



(** The only write of simple mode, for a command line: the file
    [GadgetSetAnalysis.csv] in the directory that
    [create_output_directory] returned for the request of that command
    line. *)
Definition simple_report {F : Type} (env : Env F) (parsed : Namespace) (ev : event) : Prop :=
  match ev with
  | WriteFile path _ =>
      exists dir,
        create_output_directory env (fst (directory_request parsed))
                                (snd (directory_request parsed)) = inr dir
        /\ path = dir ++ "/GadgetSetAnalysis.csv"
  | _ => True
  end.

(** [m] writes the given files in order, up to the first call that
    raises, and lets that exception through. *)
Definition writes {F : Type} (env : Env F) (m : M unit)
                  (files : list (string * list string)) : Prop :=
  forall tr,
    m tr = ((tr ++ fst (written env files))%list,
            match snd (written env files) with
            | Some e => inl e
            | None => inr tt
            end).

(** Texts put one after the other. *)
Definition join (texts : list string) : string :=
  fold_right String.append EmptyString texts.

(** The number of gadgets that the walk of lines 302-303 visits. *)
Definition special_visits {F : Type} (variant : GadgetSet F) : nat :=
  List.length (List.concat (specialSets variant)).

Section Returning.

Variable F : Type.
Variable fmt : Formatting F.

(** What the two constructors return, when they return. *)
Variable make : string -> string -> bool -> bool -> GadgetSet F.
Variable compare : GadgetSet F -> GadgetSet F -> bool -> bool -> GadgetStats F.

(** The variant and the comparison of one dictionary entry (lines 194
    and 195). *)
Definition analysed (args : Namespace) (original : GadgetSet F)
                    (kv : string * string) : GadgetSet F * GadgetStats F :=
  let variant := make (fst kv) (snd kv) (output_addresses args) (output_console args) in
  (variant, compare original variant (output_console args) (output_locality args)).

(** The events of one turn of either loop. *)
Definition variant_events (args : Namespace) (original : GadgetSet F)
                          (kv : string * string) : list event :=
  [ Print ("Analyzing variant package [" ++ fst kv ++ "] located at: " ++ snd kv);
    NewGadgetSet (fst kv) (snd kv) (output_addresses args) (output_console args);
    NewGadgetStats (name original) (name (fst (analysed args original kv)))
                   (output_console args) (output_locality args) ].

(** The lines printed by lines 177-183, and the lists as they stand
    before the loop. *)
Definition prepare_prints (args : Namespace) : list event :=
  if output_simple args then []
  else
    ((if output_addresses args
      then [Print "Writing function names associated with special purpose gadgets to disk."]
      else [])
     ++ (if tables_requested args
         then [Print "Writing LaTeX formatted table data to disk."]
         else []))%list.

Definition initial_lines (args : Namespace) (original : GadgetSet F) : Lines :=
  if output_simple args then
    {| simple_lines := [simple_header; simple_original F fmt original];
       file_1_lines := []; file_2_lines := []; file_3_lines := [];
       file_4_lines := []; file_5_lines := []; file_6_lines := [];
       file_7_lines := []; file_8_lines := []; table_lines := [] |}
  else
    {| simple_lines := [];
       file_1_lines := [file_1_header; file_1_original F original];
       file_2_lines := [file_2_header; file_2_original F original];
       file_3_lines := [file_3_header; file_3_original F original];
       file_4_lines := [file_4_header; file_4_original F original];
       file_5_lines := [file_5_header; file_5_original F original];
       file_6_lines := [file_6_header];
       file_7_lines := [file_7_header; file_7_original F fmt original];
       file_8_lines := [];
       table_lines := table_original F fmt args original |}.

(** What lines 315-320 put to the right of each of the four rows of the
    table for one variant. *)
Definition table_cells (variant : GadgetSet F) (stat : GadgetStats F) : list string :=
  [ " & " ++ str (total_unique_gadgets F variant) ++ " ("
      ++ rate_format fmt (totalUniqueIntroductionRate F stat) ++ ")";
    " & " ++ str (practical_ROP_expressivity F variant) ++ "/"
      ++ str (practical_ASLR_ROP_expressivity F variant) ++ "/"
      ++ str (turing_complete_ROP_expressivity F variant) ++ " & ("
      ++ str (practical_ROP_exp_diff F stat) ++ "/"
      ++ str (practical_ASLR_ROP_exp_diff F stat) ++ "/"
      ++ str (turing_complete_ROP_exp_diff F stat) ++ ")";
    " & " ++ str (total_functional_gadgets F variant) ++ " / "
      ++ float_format fmt (average_functional_quality F variant) ++ " & ("
      ++ str (total_functional_count_diff F stat) ++ " / "
      ++ float_format fmt (total_average_quality_diff F stat) ++ ")";
    " & " ++ str (total_sp_types F variant) ++ " & ("
      ++ str (total_sp_type_reduction F stat) ++ ")" ].

(** The lists after the loop has seen the given variants, in order. *)
Definition lines_after (args : Namespace) (L0 : Lines)
                       (seen : list (GadgetSet F * GadgetStats F)) : Lines :=
  fold_left (fun L v => add_variant_lines fmt args (fst v) (snd v) L) seen L0.

End Returning.

(** An environment in which nothing raises: every binary holds one
    syscall gadget, every directory can be created and every file
    opened. *)
Definition calm_make (n filepath : string) (_ _ : bool) : GadgetSet string :=
  World.binary n [World.gadget_at filepath].

Definition calm_compare (_ _ : GadgetSet string) (_ _ : bool) : GadgetStats string :=
  World.unchanged.

Definition calm : Env string :=
  {| GadgetSet_init := fun n filepath r c => inr (calm_make n filepath r c);
     GadgetStats_init := fun o v c l => inr (calm_compare o v c l);
     create_output_directory := fun prefix _ => inr prefix;
     open_w := fun _ => None;
     writelines := fun _ _ => None |}.

(** The same, except that the table file cannot hold its lines: writing
    them raises [UnicodeEncodeError] and leaves the file empty. *)
Definition strict : Env string :=
  {| GadgetSet_init := fun n filepath r c => inr (calm_make n filepath r c);
     GadgetStats_init := fun o v c l => inr (calm_compare o v c l);
     create_output_directory := fun prefix _ => inr prefix;
     open_w := fun _ => None;
     writelines := fun path _ =>
       if String.eqb path "results/out/Table_Formatted.txt"
       then Some (Failure "UnicodeEncodeError", [])
       else None |}.

(** A command line with a row label for [--output_tables]. *)
Definition with_tables (label : string) (args : Namespace) : Namespace :=
  {| original := original args;
     variants := variants args;
     output_metrics := output_metrics args;
     output_addresses := output_addresses args;
     output_tables := label;
     result_folder_name := result_folder_name args;
     original_name := original_name args;
     output_console := output_console args;
     output_locality := output_locality args;
     output_simple := output_simple args |}.

End Runs.

(* ===================================================================== *)
(** * The rate fields of the reports *)
(* ===================================================================== *)

Module Percent.

Import Py GSA.

(** What the presentation type [%] of Python's format gives for a
    number: ["{:.1%}".format(x)] is the number times 100 in fixed
    notation, here [digits x], followed by a percent sign. *)
Definition percent_format {F : Type} (fmt : Formatting F) (digits : F -> string) : Prop :=
  forall x, rate_format fmt x = digits x ++ "%".







End Percent.

(* ===================================================================== *)
(** * Facts about the Python fragments *)
(* ===================================================================== *)

Section SplitFacts.

Import Py.

Variable sep : ascii.

Lemma split_not_nil (s : string) : split sep s <> [].
Proof.
  destruct s as [|c r]; simpl; [discriminate|].
  destruct (Ascii.eqb c sep); [discriminate|].
  destruct (split sep r); discriminate.
Qed.

(** A leading character other than the separator joins the first part. *)
Lemma split_other (c : ascii) (r : string) :
  Ascii.eqb c sep = false ->
  exists p ps, split sep r = p :: ps /\ split sep (String c r) = String c p :: ps.
Proof.
  intros Hc. simpl. rewrite Hc.
  destruct (split sep r) as [|p ps] eqn:E.
  - exfalso. exact (split_not_nil r E).
  - exists p, ps. split; reflexivity.
Qed.

Lemma split_without_sep (s : string) :
  contains sep s = false -> split sep s = [s].
Proof.
  induction s as [|c r IH]; simpl; intros H; [reflexivity|].
  apply orb_false_elim in H. destruct H as [Hc Hr].
  rewrite Hc, (IH Hr). reflexivity.
Qed.

(** The first separator ends the first part. *)
Lemma split_at_first (a b : string) :
  contains sep a = false ->
  split sep (a ++ String sep b) = a :: split sep b.
Proof.
  induction a as [|c r IH]; simpl; intros H.
  - rewrite Ascii.eqb_refl. reflexivity.
  - apply orb_false_elim in H. destruct H as [Hc Hr].
    rewrite Hc, (IH Hr). reflexivity.
Qed.

Lemma split_two_parts (a b : string) :
  contains sep a = false -> contains sep b = false ->
  split sep (a ++ String sep b) = [a; b].
Proof.
  intros Ha Hb. rewrite (split_at_first a b Ha), (split_without_sep b Hb).
  reflexivity.
Qed.

Lemma split_with_sep_length (a b : string) :
  2 <= List.length (split sep (a ++ String sep b)).
Proof.
  induction a as [|c r IH].
  - simpl. rewrite Ascii.eqb_refl. simpl.
    destruct (split sep b) eqn:E; [destruct (split_not_nil b E)|simpl; lia].
  - change (String c r ++ String sep b) with (String c (r ++ String sep b)).
    destruct (Ascii.eqb c sep) eqn:Hc.
    + simpl. rewrite Hc. simpl. lia.
    + destruct (split_other c (r ++ String sep b) Hc) as (p & ps & E1 & E2).
      rewrite E2. rewrite E1 in IH. exact IH.
Qed.

(** A trailing separator leaves an empty last part. *)
Lemma split_trailing_sep (a d : string) :
  last (split sep (a ++ String sep EmptyString)) d = EmptyString.
Proof.
  induction a as [|c r IH].
  - simpl. rewrite Ascii.eqb_refl. reflexivity.
  - change (String c r ++ String sep EmptyString)
      with (String c (r ++ String sep EmptyString)).
    pose proof (split_with_sep_length r EmptyString) as Hlen.
    destruct (Ascii.eqb c sep) eqn:Hc.
    + simpl. rewrite Hc.
      destruct (split sep (r ++ String sep EmptyString)) eqn:E;
        [destruct (split_not_nil _ E)|].
      exact IH.
    + destruct (split_other c (r ++ String sep EmptyString) Hc) as (p & ps & E1 & E2).
      rewrite E2. rewrite E1 in IH, Hlen.
      destruct ps as [|q qs]; [simpl in Hlen; lia|].
      exact IH.
Qed.

End SplitFacts.

(* ===================================================================== *)
(** * Facts about computations and their traces *)
(* ===================================================================== *)

Section TraceFacts.

Import Py GSA.

Context {A B : Type}.
Variable P : event -> Prop.

Lemma adds_ret (a : A) : adds P (ret a).
Proof. intros tr. exists []. simpl. rewrite app_nil_r. auto. Qed.

Lemma adds_raise (e : exn) : adds P (@raise A e).
Proof. intros tr. exists []. simpl. rewrite app_nil_r. auto. Qed.

Lemma adds_lift (r : exn + A) : adds P (lift r).
Proof. intros tr. exists []. simpl. rewrite app_nil_r. auto. Qed.

Lemma adds_emit (ev : event) : P ev -> adds P (emit ev).
Proof. intros H tr. exists [ev]. simpl. auto. Qed.

Lemma adds_bind (m : M A) (k : A -> M B) :
  adds P m -> (forall a, adds P (k a)) -> adds P (bind m k).
Proof.
  intros Hm Hk tr. unfold bind.
  destruct (Hm tr) as (more & E & HP).
  destruct (m tr) as [tr' [e | a]]; simpl in E; subst tr'.
  - exists more. auto.
  - destruct (Hk a (tr ++ more)%list) as (more' & E' & HP').
    exists (more ++ more')%list. rewrite E', app_assoc.
    split; [reflexivity | apply Forall_app; auto].
Qed.

Lemma adds_try (body : M A) (handler : oserror -> M A) :
  adds P body -> (forall e, adds P (handler e)) -> adds P (try_except_OSError body handler).
Proof.
  intros Hb Hh tr. unfold try_except_OSError.
  destruct (Hb tr) as (more & E & HP).
  destruct (body tr) as [tr' [[x | x | x | x] | a]]; simpl in E; subst tr';
    try (exists more; auto; fail).
  destruct (Hh x (tr ++ more)%list) as (more' & E' & HP').
  exists (more ++ more')%list. rewrite E', app_assoc.
  split; [reflexivity | apply Forall_app; auto].
Qed.

End TraceFacts.

Section MoreTraceFacts.

Import Py GSA.

Lemma adds_weaken {A : Type} (P Q : event -> Prop) (m : M A) :
  (forall ev, P ev -> Q ev) -> adds P m -> adds Q m.
Proof.
  intros HPQ Hm tr. destruct (Hm tr) as (more & E & HP).
  exists more. split; [exact E | exact (Forall_impl Q HPQ HP)].
Qed.

Lemma adds_print (P : event -> Prop) (line : string) :
  P (Print line) -> adds P (print line).
Proof. apply adds_emit. Qed.

Lemma adds_when (P : event -> Prop) (b : bool) (m : M unit) :
  adds P m -> adds P (when b m).
Proof. intros H. destruct b; [exact H | apply adds_ret]. Qed.

Lemma adds_for_each {A S : Type} (P : event -> Prop) (body : A -> S -> M S) (l : list A) :
  (forall x s, adds P (body x s)) -> forall s, adds P (for_each l body s).
Proof.
  intros Hb. induction l as [|x rest IH]; intros s; simpl.
  - apply adds_ret.
  - apply adds_bind; [apply Hb | exact IH].
Qed.

End MoreTraceFacts.

Create HintDb trace.

#[local] Hint Resolve adds_ret adds_raise adds_lift adds_emit adds_bind adds_try
  adds_print adds_when adds_for_each : trace.

(* ===================================================================== *)
(** * The phases of the script *)
(* ===================================================================== *)

Section Phases.

Import Py GSA.

Variable F : Type.
Variable fmt : Formatting F.
Variable env : Env F.

(** *** What each phase adds to the trace *)

Lemma adds_fill_variants_dict (vs : list string) :
  forall d, adds printing (fill_variants_dict vs d).
Proof.
  induction vs as [|v rest IH]; intros d; simpl.
  - auto with trace.
  - destruct (improper (split EQUALS v)); [|apply IH].
    apply adds_bind; [apply adds_print; exact I | auto with trace].
Qed.

Lemma adds_build_variants_dict (args : Namespace) :
  adds printing (build_variants_dict args).
Proof.
  unfold build_variants_dict. destruct (variants args).
  - apply adds_fill_variants_dict.
  - auto with trace.
Qed.

Lemma adds_get_filepath (P : event -> Prop) (d : dict) (key : string) :
  adds P (get_filepath d key).
Proof. unfold get_filepath. destruct (get d key); auto with trace. Qed.

Lemma adds_prepare_lines (args : Namespace) (o : GadgetSet F) :
  adds printing (prepare_lines fmt args o).
Proof.
  unfold prepare_lines. destruct (output_simple args); [auto with trace|].
  repeat (apply adds_bind; [apply adds_when, adds_print; exact I | intros _]).
  auto with trace.
Qed.

Lemma adds_make_directory (args : Namespace) :
  adds directory_event (try_except_OSError (make_directory env args) directory_failed).
Proof.
  apply adds_try.
  - unfold make_directory.
    apply adds_bind; [apply adds_emit; exact I | auto with trace].
  - intros e. unfold directory_failed. destruct (strerror e); [|auto with trace].
    apply adds_bind; [apply adds_print; exact I | auto with trace].
Qed.

Lemma adds_write_file (path : string) (lines : list string) :
  adds write_event (write_file env path lines).
Proof.
  unfold write_file. destruct (open_w env path); [auto with trace|].
  destruct (writelines env path lines) as [[e kept]|].
  - apply adds_bind; [apply adds_emit; exact I | auto with trace].
  - apply adds_emit. exact I.
Qed.

Lemma adds_write_reports (args : Namespace) (dir : string) (L : Lines) :
  adds write_event (write_reports env args dir L).
Proof.
  apply adds_try.
  - unfold write_all. destruct (output_simple args); [apply adds_write_file|].
    repeat (apply adds_bind;
            [first [apply adds_write_file | apply adds_when, adds_write_file] | intros _]).
    apply adds_when, adds_write_file.
  - intros e. apply adds_print. exact I.
Qed.

Lemma adds_analyze_variant (args : Namespace) (d : dict) (o : GadgetSet F) (key : string) :
  adds (later_event args) (analyze_variant env args d o key).
Proof.
  unfold analyze_variant, new_GadgetSet, new_GadgetStats.
  apply adds_bind; [apply adds_get_filepath | intros filepath].
  apply adds_bind; [apply adds_print; exact I | intros _].
  apply adds_bind; [|intros variant].
  { apply adds_bind; [apply adds_emit; simpl; auto | auto with trace]. }
  apply adds_bind; [|auto with trace].
  apply adds_bind; [apply adds_emit; simpl; auto | auto with trace].
Qed.

Lemma printing_later (args : Namespace) (ev : event) : printing ev -> later_event args ev.
Proof. destruct ev; simpl; tauto. Qed.

Lemma directory_later (args : Namespace) (ev : event) :
  directory_event ev -> later_event args ev.
Proof. destruct ev; simpl; tauto. Qed.

Lemma write_later (args : Namespace) (ev : event) : write_event ev -> later_event args ev.
Proof. destruct ev; simpl; tauto. Qed.

Lemma adds_console_mode (args : Namespace) (d : dict) (o : GadgetSet F) :
  adds (later_event args) (console_mode env args d o).
Proof.
  unfold console_mode. apply adds_for_each. intros key s.
  apply adds_bind; [apply adds_analyze_variant | auto with trace].
Qed.

Lemma adds_metrics_mode (args : Namespace) (d : dict) (o : GadgetSet F) :
  adds (later_event args) (metrics_mode fmt env args d o).
Proof.
  unfold metrics_mode.
  apply adds_bind; [|intros dir].
  { eapply adds_weaken; [apply directory_later | apply adds_make_directory]. }
  apply adds_bind; [apply adds_print; exact I | intros _].
  apply adds_bind; [|intros L0].
  { eapply adds_weaken; [apply printing_later | apply adds_prepare_lines]. }
  apply adds_bind; [|intros L].
  { apply adds_for_each. intros key L.
    apply adds_bind; [apply adds_analyze_variant | auto with trace]. }
  eapply adds_weaken; [apply write_later | apply adds_write_reports].
Qed.

Lemma adds_after_original (args : Namespace) (d : dict) (o : GadgetSet F) :
  adds (later_event args) (after_original fmt env args d o).
Proof.
  unfold after_original. destruct (negb (output_metrics args));
    [apply adds_console_mode | apply adds_metrics_mode].
Qed.

End Phases.

(* ===================================================================== *)
(** * The command line and the variants dictionary *)
(* ===================================================================== *)

Section CommandLine.

Import Py GSA.

Variable F : Type.
Variable fmt : Formatting F.
Variable env : Env F.

(** C9. When [--variants] is omitted, [args.variants] is [None] and the
    loop of line 48 raises a [TypeError] that nothing catches: the script
    ends with a traceback (exit status 1) and has printed no diagnostic
    of its own. *)
Theorem variants_omitted_raises_TypeError (parsed : Namespace) :
  variants parsed = None ->
  run fmt env parsed = ([], inl (TypeError "'NoneType' object is not iterable"))
  /\ exit_status (snd (run fmt env parsed)) = 1%Z.
Proof.
  intros H.
  assert (E : run fmt env parsed
              = ([], inl (TypeError "'NoneType' object is not iterable"))).
  { unfold run, script, bind, build_variants_dict. simpl. rewrite H. reflexivity. }
  rewrite E. split; reflexivity.
Qed.

(** A malformed entry fails the test of line 50. *)
Lemma malformed_improper (entry : string) :
  malformed entry -> improper (split EQUALS entry) = true.
Proof.
  intros [H | [[path ->] | [n ->]]].
  - rewrite (split_without_sep EQUALS entry H). reflexivity.
  - simpl. unfold improper. simpl. rewrite orb_true_r. reflexivity.
  - pose proof (split_trailing_sep EQUALS n EmptyString) as Hlast.
    destruct (split EQUALS (n ++ String EQUALS EmptyString)) as [|a [|b [|c l]]];
      try reflexivity.
    simpl in Hlast. subst b. unfold improper. simpl. apply orb_true_r.
Qed.

Lemma fill_stops_at_malformed (vs : list string) :
  Exists malformed vs ->
  forall d tr,
    fill_variants_dict vs d tr = ((tr ++ [diagnostic])%list, inl (SystemExit (Code 1))).
Proof.
  induction vs as [|v rest IH]; intros H d tr.
  - inversion H.
  - simpl. destruct (improper (split EQUALS v)) eqn:E.
    + reflexivity.
    + apply IH. inversion H as [? ? Hv | ? ? Hrest]; subst; [|exact Hrest].
      rewrite (malformed_improper v Hv) in E. discriminate.
Qed.

(** C5. When the [--variants] list holds a malformed entry (no [=], an
    empty name or an empty path), the script prints the diagnostic and
    leaves through [exit(1)]: the diagnostic is all that the run has
    done, and the exit status is 1. *)
Theorem malformed_variant_exits_1 (parsed : Namespace) (vs : list string) :
  variants parsed = Some vs ->
  Exists malformed vs ->
  run fmt env parsed = ([diagnostic], inl (SystemExit (Code 1)))
  /\ exit_status (snd (run fmt env parsed)) = 1%Z.
Proof.
  intros Hvs Hbad.
  assert (E : run fmt env parsed = ([diagnostic], inl (SystemExit (Code 1)))).
  { unfold run, script, bind, build_variants_dict. simpl. rewrite Hvs.
    rewrite (fill_stops_at_malformed vs Hbad). reflexivity. }
  rewrite E. split; reflexivity.
Qed.

End CommandLine.

(* ===================================================================== *)
(** * The shape of a run *)
(* ===================================================================== *)

Section RunShape.

Import Py GSA.

Variable F : Type.
Variable fmt : Formatting F.
Variable env : Env F.

(** The script after the variants dictionary, from any trace. *)
Lemma script_after_dict (parsed : Namespace) (d : dict) (tr : list event) :
  build_variants_dict (enable_locality parsed) [] = (tr, inr d) ->
  let args := enable_locality parsed in
  let tr1 := (tr ++ opening parsed)%list in
  run fmt env parsed =
    match GadgetSet_init env (original_name parsed) (original parsed) false
                         (output_console parsed) with
    | inl e => (tr1, inl e)
    | inr o => after_original fmt env args d o tr1
    end.
Proof.
  intros E. unfold run, script, bind at 1. rewrite E.
  unfold bind, print, emit, new_GadgetSet, lift, bind, emit, opening. simpl.
  repeat rewrite <- app_assoc. simpl.
  destruct (GadgetSet_init env (original_name parsed) (original parsed) false
                           (output_console parsed)); reflexivity.
Qed.

(** A run prints, then possibly opens with the construction of the
    original's set, after which only later events occur. *)
Lemma run_shape (parsed : Namespace) :
  exists prints later,
    Forall printing prints
    /\ Forall (later_event (enable_locality parsed)) later
    /\ (fst (run fmt env parsed) = prints
        \/ fst (run fmt env parsed) = (prints ++ opening parsed ++ later)%list).
Proof.
  destruct (adds_build_variants_dict (enable_locality parsed) []) as (prints & E & HP).
  simpl in E.
  destruct (build_variants_dict (enable_locality parsed) []) as [tr [e | d]] eqn:B;
    simpl in E; subst tr.
  - exists prints, []. split; [exact HP | split; [constructor | left]].
    unfold run, script, bind. rewrite B. reflexivity.
  - rewrite (script_after_dict parsed d prints B).
    destruct (GadgetSet_init env (original_name parsed) (original parsed) false
                             (output_console parsed)) as [e | o].
    + exists prints, []. split; [exact HP | split; [constructor | right]].
      reflexivity.
    + destruct (adds_after_original F fmt env (enable_locality parsed) d o
                  (prints ++ opening parsed)%list) as (later & E & HL).
      exists prints, later. split; [exact HP | split; [exact HL | right]].
      rewrite E, app_assoc. reflexivity.
Qed.

Lemma no_construction_in_prints (prints : list event) :
  Forall printing prints -> constructions prints = [].
Proof.
  induction 1 as [|ev l Hev _ IH]; [reflexivity|].
  destruct ev; simpl in *; tauto.
Qed.

Lemma constructions_later (args : Namespace) (later : list event) :
  Forall (later_event args) later ->
  Forall (fun ev => exists key filepath,
            ev = NewGadgetSet key filepath (output_addresses args) (output_console args))
         (constructions later).
Proof.
  induction 1 as [|ev l Hev _ IH]; [constructor|].
  destruct ev; simpl in *; auto.
  destruct Hev as [-> ->]. constructor; eauto.
Qed.

(** C10. In every run, the first [GadgetSet] constructed is the
    original's, and its third argument is [False]; every other
    construction is a variant's and passes [args.output_addresses]
    there.  So the flag that enables function resolution is never set on
    the original's set. *)
Theorem original_built_without_resolution (parsed : Namespace) :
  constructions (fst (run fmt env parsed)) = []
  \/ exists later,
       constructions (fst (run fmt env parsed))
       = NewGadgetSet (original_name parsed) (original parsed) false
                      (output_console parsed) :: later
       /\ Forall (fun ev => exists key filepath,
                    ev = NewGadgetSet key filepath (output_addresses parsed)
                                      (output_console parsed))
                 later.
Proof.
  destruct (run_shape parsed) as (prints & later & HP & HL & [E | E]); rewrite E.
  - left. apply no_construction_in_prints, HP.
  - right. exists (constructions later). unfold constructions.
    rewrite !filter_app. fold (constructions prints).
    rewrite (no_construction_in_prints prints HP). split; [reflexivity|].
    apply (constructions_later (enable_locality parsed) later HL).
Qed.

(** C7. Whenever [args.output_simple] is true, the effective
    [output_locality] setting (the one the script works with after line
    45) is true, whether or not [--output_locality] was given; it is the
    setting with which every [GadgetStats] of the run is constructed. *)
Theorem output_simple_enables_locality (parsed : Namespace) :
  output_simple parsed = true ->
  output_locality (enable_locality parsed) = true
  /\ forall o v console locality,
       In (NewGadgetStats o v console locality) (fst (run fmt env parsed)) ->
       locality = true.
Proof.
  intros H.
  assert (E : output_locality (enable_locality parsed) = true).
  { simpl. rewrite H. apply orb_true_r. }
  split; [exact E|].
  intros o v console locality Hin.
  destruct (run_shape parsed) as (prints & later & HP & HL & [R | R]);
    rewrite R in Hin.
  - rewrite Forall_forall in HP. destruct (HP _ Hin).
  - rewrite Forall_forall in HP, HL.
    apply in_app_or in Hin. destruct Hin as [Hin | Hin]; [destruct (HP _ Hin)|].
    apply in_app_or in Hin. destruct Hin as [Hin | Hin].
    + simpl in Hin. destruct Hin as [Hin | [Hin | [Hin | []]]]; discriminate.
    + destruct (HL _ Hin) as [_ ->]. exact E.
Qed.

End RunShape.

(* ===================================================================== *)
(** * Exceptions raised while a set is constructed *)
(* ===================================================================== *)

Section Failures.

Import Py GSA.

Variable F : Type.
Variable fmt : Formatting F.
Variable env : Env F.

Lemma analysis_of_adds {A : Type} (m : M A) : adds (sound env) m -> analysis env m.
Proof.
  intros Hm tr Htr. left. destruct (Hm tr) as (more & -> & Hmore).
  apply Forall_app. auto.
Qed.

Lemma analysis_bind {A B : Type} (m : M A) (k : A -> M B) :
  analysis env m -> (forall a, analysis env (k a)) -> analysis env (bind m k).
Proof.
  intros Hm Hk tr Htr. unfold bind.
  destruct (Hm tr Htr) as [Hs | (e & He & Hcut)].
  - destruct (m tr) as [tr' [e | a]]; simpl in *.
    + left. exact Hs.
    + apply Hk, Hs.
  - destruct (m tr) as [tr' [e' | a]]; simpl in *; [|discriminate].
    right. exists e. split; [congruence | exact Hcut].
Qed.

Lemma analysis_for_each {A S : Type} (body : A -> S -> M S) (l : list A) :
  (forall x s, analysis env (body x s)) -> forall s, analysis env (for_each l body s).
Proof.
  intros Hb. induction l as [|x rest IH]; intros s; simpl.
  - apply analysis_of_adds, adds_ret.
  - apply analysis_bind; [apply Hb | exact IH].
Qed.

(** The one step that can cut a run short. *)
Lemma analysis_new_GadgetSet (n filepath : string) (r c : bool) :
  analysis env (new_GadgetSet env n filepath r c).
Proof.
  intros tr Htr. unfold new_GadgetSet, bind, emit, lift. simpl.
  destruct (GadgetSet_init env n filepath r c) as [e | s] eqn:E; simpl.
  - right. exists e. split; [reflexivity|].
    exists tr, n, filepath, r, c. auto.
  - left. apply Forall_app. split; [exact Htr|].
    constructor; [|constructor]. split; simpl; [|exact I].
    exists s. exact E.
Qed.

Lemma printing_sound (ev : event) : printing ev -> sound env ev.
Proof. destruct ev; simpl; try tauto. intros _. split; exact I. Qed.

Lemma directory_sound (ev : event) : directory_event ev -> sound env ev.
Proof. destruct ev; simpl; try tauto; intros _; split; exact I. Qed.

Lemma analysis_analyze_variant (args : Namespace) (d : dict) (o : GadgetSet F)
                               (key : string) :
  analysis env (analyze_variant env args d o key).
Proof.
  unfold analyze_variant.
  apply analysis_bind; [apply analysis_of_adds, adds_get_filepath | intros filepath].
  apply analysis_bind; [apply analysis_of_adds, adds_print; split; exact I | intros _].
  apply analysis_bind; [apply analysis_new_GadgetSet | intros variant].
  apply analysis_bind; [|intros stat; apply analysis_of_adds, adds_ret].
  apply analysis_of_adds. unfold new_GadgetStats.
  apply adds_bind; [apply adds_emit; split; exact I | auto with trace].
Qed.

Lemma settled_of_analysis {A : Type} (m : M A) : analysis env m -> settled env m.
Proof.
  intros Hm tr Htr. destruct (Hm tr Htr) as [Hs | Hcut]; [left | right; exact Hcut].
  eapply Forall_impl; [|exact Hs]. intros ev [Hc _]. exact Hc.
Qed.

Lemma settled_bind {A B : Type} (m : M A) (k : A -> M B) :
  analysis env m -> (forall a, settled env (k a)) -> settled env (bind m k).
Proof.
  intros Hm Hk tr Htr. unfold bind.
  destruct (Hm tr Htr) as [Hs | (e & He & Hcut)].
  - destruct (m tr) as [tr' [e | a]]; simpl in *.
    + left. eapply Forall_impl; [|exact Hs]. intros ev [Hc _]. exact Hc.
    + apply Hk, Hs.
  - destruct (m tr) as [tr' [e' | a]]; simpl in *; [|discriminate].
    right. exists e. split; [congruence | exact Hcut].
Qed.

Lemma settled_of_writes {A : Type} (m : M A) : adds write_event m -> settled env m.
Proof.
  intros Hm tr Htr. left. destruct (Hm tr) as (more & -> & Hmore).
  apply Forall_app. split.
  - eapply Forall_impl; [|exact Htr]. intros ev [Hc _]. exact Hc.
  - eapply Forall_impl; [|exact Hmore]. intros ev. destruct ev; simpl; tauto.
Qed.

Lemma settled_script (parsed : Namespace) : settled env (script fmt env parsed).
Proof.
  unfold script.
  apply settled_bind; [|intros d].
  { apply analysis_of_adds. eapply adds_weaken; [apply printing_sound|].
    apply adds_build_variants_dict. }
  apply settled_bind; [apply analysis_of_adds, adds_print; split; exact I | intros _].
  apply settled_bind; [apply analysis_of_adds, adds_print; split; exact I | intros _].
  apply settled_bind; [apply analysis_new_GadgetSet | intros o].
  unfold after_original. destruct (negb (output_metrics (enable_locality parsed))).
  - apply settled_of_analysis. unfold console_mode.
    apply analysis_for_each. intros key s.
    apply analysis_bind; [apply analysis_analyze_variant|].
    intros _. apply analysis_of_adds, adds_ret.
  - unfold metrics_mode.
    apply settled_bind; [|intros dir].
    { apply analysis_of_adds. eapply adds_weaken; [apply directory_sound|].
      apply adds_make_directory. }
    apply settled_bind; [apply analysis_of_adds, adds_print; split; exact I | intros _].
    apply settled_bind; [|intros L0].
    { apply analysis_of_adds. eapply adds_weaken; [apply printing_sound|].
      apply adds_prepare_lines. }
    apply settled_bind; [|intros L].
    { apply analysis_for_each. intros key L.
      apply analysis_bind; [apply analysis_analyze_variant|].
      intros vs. apply analysis_of_adds, adds_ret. }
    apply settled_of_writes, adds_write_reports.
Qed.

(** C2, as the script has it.  A [GadgetSet] construction that raises is
    not isolated: whichever construction of a run raises, the run ends
    there with that exception, uncaught.  The construction is the last
    thing the run did, so no later variant is analyzed, and the run has
    written no file. *)
Theorem GadgetSet_failure_ends_run (parsed : Namespace)
    (key filepath : string) (r c : bool) (e : exn) :
  In (NewGadgetSet key filepath r c) (fst (run fmt env parsed)) ->
  GadgetSet_init env key filepath r c = inl e ->
  snd (run fmt env parsed) = inl e
  /\ (exists before,
        fst (run fmt env parsed) = (before ++ [NewGadgetSet key filepath r c])%list)
  /\ (forall path lines, ~ In (WriteFile path lines) (fst (run fmt env parsed))).
Proof.
  intros Hin Hfail.
  destruct (settled_script parsed [] (Forall_nil _)) as [Hall | (e' & He' & Hcut)];
    fold (run fmt env parsed) in *.
  - rewrite Forall_forall in Hall. destruct (Hall _ Hin) as [s Hs]. congruence.
  - destruct Hcut as (before & n & p & r' & c' & E & Hbefore & Hraise).
    rewrite Forall_forall in Hbefore.
    assert (Hlast : NewGadgetSet key filepath r c = NewGadgetSet n p r' c').
    { rewrite E in Hin. apply in_app_or in Hin. destruct Hin as [Hin | [Hin | []]].
      - destruct (Hbefore _ Hin) as [[s Hs] _]. congruence.
      - symmetry. exact Hin. }
    inversion Hlast; subst n p r' c'. clear Hlast.
    split; [congruence|]. split; [exists before; exact E|].
    intros path lines Hw. rewrite E in Hw. apply in_app_or in Hw.
    destruct Hw as [Hw | [Hw | []]]; [|discriminate].
    destruct (Hbefore _ Hw) as [_ []].
Qed.

End Failures.

(* ===================================================================== *)
(** * The results directory and the report files *)
(* ===================================================================== *)

Section Results.

Import Py GSA Runs.

Variable F : Type.
Variable fmt : Formatting F.
Variable env : Env F.

(** A variants dictionary that gets built has printed nothing. *)
Lemma fill_variants_dict_silent (vs : list string) :
  forall d tr tr' d', fill_variants_dict vs d tr = (tr', inr d') -> tr' = tr.
Proof.
  induction vs as [|v rest IH]; intros d tr tr' d'; simpl.
  - intros E. inversion E. reflexivity.
  - destruct (improper (split EQUALS v)).
    + unfold bind, print, emit, raise. simpl. discriminate.
    + apply IH.
Qed.

Lemma build_variants_dict_silent (args : Namespace) (tr tr' : list event) (d : dict) :
  build_variants_dict args tr = (tr', inr d) -> tr' = tr.
Proof.
  unfold build_variants_dict. destruct (variants args).
  - apply fill_variants_dict_silent.
  - discriminate.
Qed.

(** The write phase, file by file. *)
Lemma writes_ret : writes env (ret tt) [].
Proof. intros tr. unfold ret. simpl. rewrite app_nil_r. reflexivity. Qed.

Lemma writes_file (path : string) (lines : list string) :
  writes env (write_file env path lines) [(path, lines)].
Proof.
  intros tr. unfold write_file. simpl.
  destruct (open_w env path) as [e|]; simpl.
  - unfold raise. rewrite app_nil_r. reflexivity.
  - destruct (writelines env path lines) as [[e kept]|]; reflexivity.
Qed.

Lemma written_app (f1 f2 : list (string * list string)) :
  written env (f1 ++ f2)
  = match snd (written env f1) with
    | Some e => written env f1
    | None => ((fst (written env f1) ++ fst (written env f2))%list,
               snd (written env f2))
    end.
Proof.
  induction f1 as [|[path lines] rest IH]; simpl.
  - destruct (written env f2). reflexivity.
  - destruct (open_w env path); [reflexivity|].
    destruct (writelines env path lines) as [[e kept]|]; [reflexivity|].
    rewrite IH. destruct (written env rest) as [l [e|]]; reflexivity.
Qed.

Lemma writes_bind (m k : M unit) (f1 f2 : list (string * list string)) :
  writes env m f1 -> writes env k f2 -> writes env (bind m (fun _ => k)) (f1 ++ f2).
Proof.
  intros Hm Hk tr. unfold bind. rewrite Hm, written_app.
  destruct (written env f1) as [l [e|]]; simpl; [reflexivity|].
  rewrite Hk, app_assoc. reflexivity.
Qed.

Lemma writes_when (b : bool) (m : M unit) (f : list (string * list string)) :
  writes env m f -> writes env (when b m) (if b then f else []).
Proof. intros H. destruct b; [exact H | apply writes_ret]. Qed.

Lemma write_all_written (args : Namespace) (dir : string) (L : Lines) (tr : list event) :
  write_all env args dir L tr
  = ((tr ++ fst (written env (planned_files args dir L)))%list,
     match snd (written env (planned_files args dir L)) with
     | Some e => inl e
     | None => inr tt
     end).
Proof.
  revert tr. change (writes env (write_all env args dir L) (planned_files args dir L)).
  unfold write_all, planned_files. destruct (output_simple args).
  - apply writes_file.
  - repeat (apply (writes_bind _ _ [_]); [apply writes_file|]).
    apply (writes_bind _ _ (if output_locality args then [_] else []));
      [apply writes_when, writes_file|].
    apply (writes_bind _ _ [_]); [apply writes_file|].
    apply (writes_bind _ _ (if output_addresses args then [_] else []));
      [apply writes_when, writes_file|].
    apply writes_when, writes_file.
Qed.

Lemma write_reports_written (args : Namespace) (dir : string) (L : Lines) (tr : list event) :
  write_reports env args dir L tr
  = ((tr ++ fst (written env (planned_files args dir L))
         ++ error_line (snd (written env (planned_files args dir L))))%list,
     write_outcome (snd (written env (planned_files args dir L)))).
Proof.
  unfold write_reports, try_except_OSError. rewrite write_all_written.
  destruct (snd (written env (planned_files args dir L))) as [[a | msg | e | n]|]; simpl;
    try (rewrite app_nil_r; reflexivity).
  unfold print, emit. rewrite <- app_assoc. reflexivity.
Qed.

(** C6, as the script has it.  A results directory that cannot be created
    is fatal: once the original's set exists, the script asks for the
    directory, prints the diagnostic of line 79 and leaves through
    [sys.exit] with a message; no variant has been analyzed and no file
    written.  A report file that cannot be opened is not fatal: the write
    phase prints the error and returns; the files before the failing one
    have been written, those after it are skipped.  The same holds for
    any [OSError] of the write phase; an exception of another class is
    not caught by line 381 and leaves the script. *)
Theorem results_directory_errors (parsed : Namespace) :
  (forall (d : dict) (o : GadgetSet F) (osErr : oserror) (text : string),
      output_metrics parsed = true ->
      snd (build_variants_dict (enable_locality parsed) []) = inr d ->
      GadgetSet_init env (original_name parsed) (original parsed) false
                     (output_console parsed) = inr o ->
      create_output_directory env (fst (directory_request parsed))
                              (snd (directory_request parsed)) = inl (OSError osErr) ->
      strerror osErr = Some text ->
      run fmt env parsed
      = ((opening parsed
          ++ [ CreateDir (fst (directory_request parsed)) (snd (directory_request parsed));
               Print ("An OS Error occurred during creation of results directory: "
                      ++ text)%string ])%list,
         inl (SystemExit (Message "Results cannot be logged, aborting operation..."))))
  /\ (forall (args : Namespace) (dir : string) (L : Lines) (tr : list event),
        write_reports env args dir L tr
        = ((tr ++ fst (written env (planned_files args dir L))
               ++ error_line (snd (written env (planned_files args dir L))))%list,
           write_outcome (snd (written env (planned_files args dir L))))).
Proof.
  split; [|intros; apply write_reports_written].
  intros d o osErr text Hmetrics Hdict Horig Hdir Htext.
  destruct (build_variants_dict (enable_locality parsed) []) as [tr0 r0] eqn:B.
  simpl in Hdict. subst r0.
  pose proof (build_variants_dict_silent _ _ _ _ B) as ->.
  rewrite (script_after_dict F fmt env parsed d [] B), Horig.
  unfold after_original. simpl (output_metrics _). rewrite Hmetrics. simpl negb. cbv iota.
  unfold metrics_mode, bind at 1, try_except_OSError, make_directory, bind at 1, emit, lift.
  change (directory_request (enable_locality parsed)) with (directory_request parsed).
  cbv beta iota zeta. simpl fst at 1. simpl snd at 1.
  rewrite Hdir. unfold directory_failed. rewrite Htext.
  unfold bind, print, emit, raise. simpl. reflexivity.
Qed.

End Results.

(* ===================================================================== *)
(** * Repeated names in the variants dictionary *)
(* ===================================================================== *)

Section DictFacts.

Import Py GSA.

Lemma get_setitem (d : dict) (k v k' : string) :
  get (setitem d k v) k' = if String.eqb k k' then Some v else get d k'.
Proof.
  induction d as [|[k0 v0] r IH]; simpl.
  - reflexivity.
  - destruct (String.eqb_spec k0 k) as [-> | Hne]; simpl.
    + destruct (String.eqb k k'); reflexivity.
    + rewrite IH. destruct (String.eqb_spec k0 k') as [-> | Hne'].
      * destruct (String.eqb_spec k k'); [congruence | reflexivity].
      * reflexivity.
Qed.

Lemma keys_setitem (d : dict) (k v : string) :
  keys (setitem d k v)
  = if existsb (String.eqb k) (keys d) then keys d else (keys d ++ [k])%list.
Proof.
  unfold keys. induction d as [|[k0 v0] r IH]; simpl.
  - reflexivity.
  - rewrite (String.eqb_sym k k0).
    destruct (String.eqb k0 k); simpl; [reflexivity|].
    rewrite IH.
    destruct (existsb (String.eqb k) (map fst r)); reflexivity.
Qed.

Lemma assign_all_cons (d : dict) (k v : string) (rest : list (string * string)) :
  assign_all d ((k, v) :: rest) = assign_all (setitem d k v) rest.
Proof. reflexivity. Qed.

Lemma keys_assign_all (pairs : list (string * string)) :
  forall d, keys (assign_all d pairs)
            = (keys d ++ first_occurrences (keys d) (map fst pairs))%list.
Proof.
  induction pairs as [|[k v] rest IH]; intros d.
  - simpl. rewrite app_nil_r. reflexivity.
  - rewrite assign_all_cons, IH, keys_setitem. simpl.
    destruct (existsb (String.eqb k) (keys d)); [reflexivity|].
    rewrite <- app_assoc. reflexivity.
Qed.

Lemma get_assign_all (pairs : list (string * string)) (name : string) :
  forall d, get (assign_all d pairs) name
            = match last_value pairs name with
              | Some v => Some v
              | None => get d name
              end.
Proof.
  induction pairs as [|[k v] rest IH]; intros d.
  - reflexivity.
  - rewrite assign_all_cons, IH, get_setitem. simpl.
    destruct (last_value rest name); [reflexivity|].
    destruct (String.eqb k name); reflexivity.
Qed.

Lemma first_occurrences_fresh (l : list string) :
  forall seen,
    NoDup (first_occurrences seen l)
    /\ forall k, In k (first_occurrences seen l) -> ~ In k seen.
Proof.
  induction l as [|k rest IH]; intros seen; simpl.
  - split; [constructor | intros k []].
  - destruct (existsb (String.eqb k) seen) eqn:E.
    + apply IH.
    + destruct (IH (seen ++ [k])%list) as [Hnd Hfresh]. split.
      * constructor; [|exact Hnd]. intros Hin.
        apply (Hfresh k Hin), in_or_app. right. left. reflexivity.
      * intros x [<- | Hin].
        -- intros Hk. assert (existsb (String.eqb k) seen = true); [|congruence].
           apply existsb_exists. exists k. split; [exact Hk | apply String.eqb_refl].
        -- intros Hx. apply (Hfresh x Hin), in_or_app. left. exact Hx.
Qed.

(** Entries with a proper name and a proper path are all accepted. *)
Lemma fill_variants_dict_proper (pairs : list (string * string)) :
  Forall (fun kv => proper_part (fst kv) /\ proper_part (snd kv)) pairs ->
  forall d tr,
    fill_variants_dict (map entry_of pairs) d tr = (tr, inr (assign_all d pairs)).
Proof.
  induction 1 as [|[k v] rest [[Hk Hk'] [Hv Hv']] _ IH]; intros d tr.
  - reflexivity.
  - simpl in Hk, Hk', Hv, Hv'. rewrite assign_all_cons.
    change (map entry_of ((k, v) :: rest)) with (entry_of (k, v) :: map entry_of rest).
    assert (S : split EQUALS (entry_of (k, v)) = [k; v]).
    { apply split_two_parts; assumption. }
    cbn [fill_variants_dict]. rewrite S. cbv zeta.
    assert (E : improper [k; v] = false).
    { destruct k; [congruence|]. destruct v; [congruence|]. reflexivity. }
    rewrite E. apply IH.
Qed.

(** C8, as the script has it.  Two entries with the same name are not
    rejected: a list of well-formed entries is always accepted, and the
    dictionary built keeps one entry per name, at the place of the name's
    first occurrence, with the path of its last occurrence. *)
Theorem duplicate_names_accepted (pairs : list (string * string)) :
  Forall (fun kv => proper_part (fst kv) /\ proper_part (snd kv)) pairs ->
  exists d,
    fill_variants_dict (map entry_of pairs) [] [] = ([], inr d)
    /\ keys d = first_occurrences [] (map fst pairs)
    /\ NoDup (keys d)
    /\ forall name, get d name = last_value pairs name.
Proof.
  intros H. exists (assign_all [] pairs).
  split; [apply fill_variants_dict_proper, H|].
  split; [apply (keys_assign_all pairs [])|].
  split.
  - rewrite (keys_assign_all pairs []). apply first_occurrences_fresh.
  - intros name. rewrite get_assign_all. simpl.
    destruct (last_value pairs name); reflexivity.
Qed.

End DictFacts.

(* ===================================================================== *)
(** * Concrete runs *)
(* ===================================================================== *)

Section Concrete.

Import Py GSA World.

Ltac find_event := simpl; repeat (first [left; reflexivity | right]).

Ltac no_event H :=
  simpl in H;
  repeat (destruct H as [H | H]; [try discriminate H|]); try contradiction.

(** *** The report of sensitive gadgets *)

Lemma file_8_lists_every_special_gadget (F : Type) (fmt : Formatting F)
    (variant : GadgetSet F) (specialSet : list Gadget) (gadget : Gadget) :
  In specialSet (specialSets variant) -> In gadget specialSet ->
  In ("Gadget: " ++ str_instructions fmt (instructions gadget) ++ LINE_SEP)
     (file_8_variant fmt variant).
Proof.
  intros Hset Hg. unfold file_8_variant. cbv zeta.
  apply in_or_app. right. apply in_or_app. left.
  apply in_flat_map. exists specialSet. split; [exact Hset|].
  apply in_flat_map. exists gadget. split; [exact Hg|].
  left. reflexivity.
Qed.

(** C3. The variant [v] is the binary [b.out], whose only
    special-purpose gadget has the instructions of the original's: by
    content identity the variant introduces nothing.  The report written
    for [--output_addresses] lists that gadget all the same, under the
    heading of the gadgets introduced. *)
Theorem sensitive_report_lists_retained_gadget :
  let parsed := command (Some ["v=b.out"]) true true (Some "out") in
  GadgetSet_init env "Original" "a.out" false false
    = inr (binary "Original" [gadget_at "a.out"])
  /\ GadgetSet_init env "v" "b.out" true false = inr (binary "v" [gadget_at "b.out"])
  /\ Stats.minus (List.concat (specialSets (binary "v" [gadget_at "b.out"])))
                 (List.concat (specialSets (binary "Original" [gadget_at "a.out"]))) = []
  /\ In (WriteFile "results/out/Likely_Gadget_Locations.txt"
           [ "Sensitive gadgets introduced in variant: v" ++ LINE_SEP;
             "Gadget: pop rax ; syscall" ++ LINE_SEP;
             "Found at offset: b.out" ++ LINE_SEP;
             "No associated function found." ++ LINE_SEP;
             "----------------------------------------------------------" ++ LINE_SEP ])
        (fst (run fmt env parsed)).
Proof.
  cbv zeta. split; [reflexivity|]. split; [reflexivity|]. split; [reflexivity|].
  vm_compute. find_event.
Qed.

(** *** Instances of the theorems above *)

Lemma output_simple_enables_locality_witness :
  output_locality
    (enable_locality (with_simple (command (Some ["v=b.out"]) true false None))) = true
  /\ forall o v console locality,
       In (NewGadgetStats o v console locality)
          (fst (run fmt env (with_simple (command (Some ["v=b.out"]) true false None)))) ->
       locality = true.
Proof.
  apply (output_simple_enables_locality string fmt env). reflexivity.
Defined.

Lemma variants_omitted_raises_TypeError_witness :
  run fmt env (command None false false None)
  = ([], inl (TypeError "'NoneType' object is not iterable"))
  /\ exit_status (snd (run fmt env (command None false false None))) = 1%Z.
Proof.
  apply (variants_omitted_raises_TypeError string fmt env). reflexivity.
Defined.

Lemma malformed_variant_exits_1_witness :
  run fmt env (command (Some ["v=b.out"; "w"]) true true None)
  = ([diagnostic], inl (SystemExit (Code 1)))
  /\ exit_status (snd (run fmt env (command (Some ["v=b.out"; "w"]) true true None))) = 1%Z.
Proof.
  apply (malformed_variant_exits_1 string fmt env _ ["v=b.out"; "w"]).
  - reflexivity.
  - apply Exists_cons_tl, Exists_cons_hd. left. reflexivity.
Defined.

Lemma GadgetSet_failure_ends_run_witness :
  snd (run fmt env (command (Some ["a=bad"; "b=good"]) true false None))
  = inl (Failure "ScanError")
  /\ (exists before,
        fst (run fmt env (command (Some ["a=bad"; "b=good"]) true false None))
        = (before ++ [NewGadgetSet "a" "bad" false false])%list)
  /\ (forall path lines,
        ~ In (WriteFile path lines)
             (fst (run fmt env (command (Some ["a=bad"; "b=good"]) true false None)))).
Proof.
  apply (GadgetSet_failure_ends_run string fmt env).
  - vm_compute. find_event.
  - reflexivity.
Defined.

Lemma results_directory_errors_witness :
  run fmt env (command (Some ["v=b.out"]) true false (Some "locked"))
  = ((opening (command (Some ["v=b.out"]) true false (Some "locked"))
      ++ [ CreateDir "results/locked" (Some false);
           Print "An OS Error occurred during creation of results directory: Permission denied" ])%list,
     inl (SystemExit (Message "Results cannot be logged, aborting operation..."))).
Proof.
  destruct (results_directory_errors string fmt env
              (command (Some ["v=b.out"]) true false (Some "locked"))) as [H _].
  apply (H [("v", "b.out")] (binary "Original" [gadget_at "a.out"]) denied
           "Permission denied"); reflexivity.
Defined.

Lemma duplicate_names_accepted_witness :
  exists d,
    fill_variants_dict (map entry_of [("a", "x"); ("b", "z"); ("a", "y")]) [] [] = ([], inr d)
    /\ keys d = first_occurrences [] (map fst [("a", "x"); ("b", "z"); ("a", "y")])
    /\ NoDup (keys d)
    /\ forall name, get d name = last_value [("a", "x"); ("b", "z"); ("a", "y")] name.
Proof.
  apply duplicate_names_accepted.
  repeat constructor; simpl; discriminate.
Defined.

(** *** Where the script departs from what is asked of it *)

(** C2: the first variant cannot be scanned; the second one, which
    could, is never analyzed, and nothing is reported. *)
Lemma sibling_variant_not_analyzed :
  let parsed := command (Some ["a=bad"; "b=good"]) true false None in
  GadgetSet_init env "a" "bad" false false = inl (Failure "ScanError")
  /\ GadgetSet_init env "b" "good" false false = inr (binary "b" [gadget_at "good"])
  /\ ~ In (NewGadgetSet "b" "good" false false) (fst (run fmt env parsed))
  /\ (forall path lines, ~ In (WriteFile path lines) (fst (run fmt env parsed)))
  /\ snd (run fmt env parsed) = inl (Failure "ScanError").
Proof.
  cbv zeta. split; [reflexivity|]. split; [reflexivity|].
  split; [|split; [|reflexivity]].
  - intros H. vm_compute in H. no_event H.
  - intros path lines H. vm_compute in H. no_event H.
Qed.

(** C6: the second report cannot be opened; the first one has been
    written and stays, and the script ends normally. *)
Lemma write_failure_keeps_first_report :
  let parsed := command (Some ["v=b.out"]) true false (Some "full") in
  open_w env "results/full/Gadget_Introduction_Counts_Rate.csv" = Some (OSError disk_full)
  /\ snd (run fmt env parsed) = inr tt
  /\ exit_status (snd (run fmt env parsed)) = 0%Z
  /\ exists lines,
       In (WriteFile "results/full/GadgetCounts_Reduction.csv" lines)
          (fst (run fmt env parsed)).
Proof.
  cbv zeta. split; [reflexivity|]. split; [reflexivity|]. split; [reflexivity|].
  eexists. vm_compute. find_event.
Qed.

(** C8: two entries with the name [a] are accepted, and the run goes on
    with the path given last. *)
Lemma duplicate_name_not_rejected :
  let parsed := command (Some ["a=x"; "a=y"]) false false None in
  build_variants_dict parsed [] = ([], inr [("a", "y")])
  /\ ~ (exists tr e, build_variants_dict parsed [] = (tr, inl e))
  /\ In (NewGadgetSet "a" "y" false false) (fst (run fmt env parsed)).
Proof.
  cbv zeta. split; [reflexivity|]. split.
  - intros (tr & e & H). vm_compute in H. discriminate H.
  - vm_compute. find_event.
Qed.

End Concrete.

(* ===================================================================== *)
(** * Which entries the script accepts *)
(* ===================================================================== *)

Section Entries.

Import Py GSA Runs.

Variable F : Type.
Variable fmt : Formatting F.
Variable env : Env F.

Lemma split_parts_without_sep (sep : ascii) (s : string) :
  Forall (fun part => contains sep part = false) (split sep s).
Proof.
  induction s as [|c r IH]; simpl.
  - repeat constructor.
  - destruct (Ascii.eqb c sep) eqn:Hc.
    + constructor; [reflexivity | exact IH].
    + destruct (split sep r) as [|p ps]; [repeat constructor; simpl; rewrite Hc; reflexivity|].
      inversion IH as [|? ? Hp Hps]; subst.
      constructor; [simpl; rewrite Hc, Hp; reflexivity | exact Hps].
Qed.

Lemma split_one_part (sep : ascii) (s b : string) :
  split sep s = [b] -> s = b.
Proof.
  revert b. induction s as [|c r IH]; intros b; simpl.
  - intros E. inversion E. reflexivity.
  - destruct (Ascii.eqb c sep).
    + intros E. inversion E as [[E1 E2]]. destruct (split_not_nil sep r E2).
    + destruct (split sep r) as [|p ps] eqn:Er; intros E; inversion E; subst.
      * destruct (split_not_nil sep r Er).
      * rewrite (IH p eq_refl). reflexivity.
Qed.

(** Two parts come from exactly one separator, between them. *)
Lemma split_two_parts_inv (sep : ascii) (s a b : string) :
  split sep s = [a; b] -> s = a ++ String sep b.
Proof.
  revert a. induction s as [|c r IH]; intros a; simpl.
  - discriminate.
  - destruct (Ascii.eqb_spec c sep) as [-> | Hc].
    + intros E. inversion E as [[E1 E2]]. rewrite (split_one_part sep r b E2).
      reflexivity.
    + destruct (split sep r) as [|p ps] eqn:Er; intros E; inversion E; subst.
      rewrite (IH p eq_refl). reflexivity.
Qed.

(** X1. The test of line 50 lets an entry through exactly when the entry
    is [NAME=PATH] with a name and a path that are not empty and hold no
    [=] of their own; the assignment of line 53 is then of that name and
    that path. *)
Theorem accepted_entries (entry : string) :
  improper (split EQUALS entry) = false
  <-> exists name path,
        entry = entry_of (name, path) /\ proper_part name /\ proper_part path
        /\ assignment entry = (name, path).
Proof.
  split.
  - intros H. unfold improper in H.
    apply orb_false_elim in H. destruct H as [H Hb].
    apply orb_false_elim in H. destruct H as [Hlen Ha].
    pose proof (split_parts_without_sep EQUALS entry) as Hparts.
    unfold assignment.
    destruct (split EQUALS entry) as [|a [|b [|c l]]] eqn:E; try discriminate Hlen.
    exists a, b. unfold item in *. simpl in Ha, Hb.
    inversion Hparts as [|? ? Hpa Hrest]; subst.
    inversion Hrest as [|? ? Hpb _]; subst.
    split; [apply (split_two_parts_inv EQUALS entry a b E)|].
    split; [split; [destruct a; [discriminate Ha | discriminate] | exact Hpa]|].
    split; [split; [destruct b; [discriminate Hb | discriminate] | exact Hpb]|].
    reflexivity.
  - intros (n & p & -> & [Hn Hn'] & [Hp Hp'] & _).
    unfold entry_of. simpl. rewrite (split_two_parts EQUALS n p Hn' Hp').
    destruct n; [congruence|]. destruct p; [congruence|]. reflexivity.
Qed.

Lemma fill_stops_at_improper (vs : list string) :
  Exists (fun entry => improper (split EQUALS entry) = true) vs ->
  forall d tr,
    fill_variants_dict vs d tr = ((tr ++ [diagnostic])%list, inl (SystemExit (Code 1))).
Proof.
  induction vs as [|v rest IH]; intros H d tr.
  - inversion H.
  - simpl. destruct (improper (split EQUALS v)) eqn:E.
    + reflexivity.
    + apply IH. inversion H as [? ? Hv | ? ? Hrest]; subst; [congruence | exact Hrest].
Qed.

Lemma fill_accepts (vs : list string) :
  Forall (fun entry => improper (split EQUALS entry) = false) vs ->
  forall d tr,
    fill_variants_dict vs d tr = (tr, inr (assign_all d (map assignment vs))).
Proof.
  induction 1 as [|v rest Hv _ IH]; intros d tr.
  - reflexivity.
  - simpl. rewrite Hv. rewrite IH. reflexivity.
Qed.

Lemma well_formed_accepted (entry : string) :
  well_formed entry <-> improper (split EQUALS entry) = false.
Proof.
  rewrite accepted_entries. unfold well_formed. split.
  - intros (n & p & E & Hn & Hp). exists n, p.
    split; [exact E|]. split; [exact Hn|]. split; [exact Hp|].
    subst entry. unfold assignment, entry_of. cbn [fst snd].
    destruct Hn as [_ Hn], Hp as [_ Hp].
    rewrite (split_two_parts EQUALS n p Hn Hp). reflexivity.
  - intros (n & p & E & Hn & Hp & _). exists n, p. auto.
Qed.

(** X2. Whether a run gets past the variants dictionary is decided by
    the entries alone.  If one entry is not well formed (this includes
    an entry with two [=], such as [a=b=c]), the run is the diagnostic
    and [exit(1)].  If all are, nothing is printed by lines 47-53, and
    the run starts with the banner, the line about the original and the
    construction of the original's set. *)
Theorem entries_decide (parsed : Namespace) (vs : list string) :
  variants parsed = Some vs ->
  (Exists (fun entry => ~ well_formed entry) vs ->
   run fmt env parsed = ([diagnostic], inl (SystemExit (Code 1))))
  /\ (Forall well_formed vs ->
      exists later, fst (run fmt env parsed) = (opening parsed ++ later)%list).
Proof.
  intros Hvs. split.
  - intros Hbad.
    assert (Hex : Exists (fun entry => improper (split EQUALS entry) = true) vs).
    { eapply Exists_impl; [|exact Hbad]. intros entry Hn. simpl in Hn.
      destruct (improper (split EQUALS entry)) eqn:E; [reflexivity|].
      destruct Hn. apply well_formed_accepted, E. }
    unfold run, script, bind, build_variants_dict. simpl. rewrite Hvs.
    rewrite (fill_stops_at_improper vs Hex). reflexivity.
  - intros Hgood.
    assert (Hall : Forall (fun entry => improper (split EQUALS entry) = false) vs).
    { eapply Forall_impl; [|exact Hgood]. intros entry. apply well_formed_accepted. }
    assert (B : build_variants_dict (enable_locality parsed) []
                = ([], inr (assign_all [] (map assignment vs)))).
    { unfold build_variants_dict. simpl. rewrite Hvs. apply fill_accepts, Hall. }
    rewrite (script_after_dict F fmt env parsed _ [] B).
    destruct (GadgetSet_init env (original_name parsed) (original parsed) false
                             (output_console parsed)) as [e | o].
    + exists []. simpl. reflexivity.
    + destruct (adds_after_original F fmt env (enable_locality parsed)
                  (assign_all [] (map assignment vs)) o ([] ++ opening parsed)%list)
        as (later & E & _).
      exists later. rewrite E. reflexivity.
Qed.

End Entries.

(* ===================================================================== *)
(** * What a run does to the file system *)
(* ===================================================================== *)

Section FileSystem.

Import Py GSA Runs.

Variable F : Type.
Variable fmt : Formatting F.
Variable env : Env F.

(** One turn of a loop prints, constructs and compares, with the flags
    of the command line. *)
Lemma adds_analyze_variant_events (P : event -> Prop) (args : Namespace) (d : dict)
    (o : GadgetSet F) (key : string) :
  (forall line, P (Print line)) ->
  (forall n filepath, P (NewGadgetSet n filepath (output_addresses args)
                                      (output_console args))) ->
  (forall a b, P (NewGadgetStats a b (output_console args) (output_locality args))) ->
  adds P (analyze_variant env args d o key).
Proof.
  intros HP Hset Hstat. unfold analyze_variant, new_GadgetSet, new_GadgetStats.
  apply adds_bind; [apply adds_get_filepath | intros filepath].
  apply adds_bind; [apply adds_print, HP | intros _].
  apply adds_bind; [|intros variant].
  { apply adds_bind; [apply adds_emit, Hset | auto with trace]. }
  apply adds_bind; [|auto with trace].
  apply adds_bind; [apply adds_emit, Hstat | auto with trace].
Qed.

(** The script adds only events of a kind that holds the prints, the
    constructions and whatever follows the original's construction. *)
Lemma adds_script (P : event -> Prop) (parsed : Namespace) :
  (forall line, P (Print line)) ->
  (forall n filepath r c, P (NewGadgetSet n filepath r c)) ->
  (forall d o, adds P (after_original fmt env (enable_locality parsed) d o)) ->
  adds P (script fmt env parsed).
Proof.
  intros HP Hset Hafter. unfold script.
  apply adds_bind; [|intros d].
  { eapply adds_weaken; [|apply adds_build_variants_dict].
    intros ev. destruct ev; simpl; try tauto. intros _. apply HP. }
  apply adds_bind; [apply adds_print, HP | intros _].
  apply adds_bind; [apply adds_print, HP | intros _].
  apply adds_bind; [|intros o; apply Hafter].
  unfold new_GadgetSet. apply adds_bind; [apply adds_emit, Hset | auto with trace].
Qed.

Lemma adds_console_loop (P : event -> Prop) (args : Namespace) (d : dict) (o : GadgetSet F) :
  (forall line, P (Print line)) ->
  (forall n filepath r c, P (NewGadgetSet n filepath r c)) ->
  (forall a b c l, P (NewGadgetStats a b c l)) ->
  adds P (console_mode env args d o).
Proof.
  intros HP Hset Hstat. unfold console_mode. apply adds_for_each. intros key s.
  apply adds_bind; [|auto with trace].
  apply adds_analyze_variant_events; auto.
Qed.

(** X3. Without [--output_metrics] a run leaves the file system alone:
    it creates no directory and writes no file, whatever the other
    options are and however the run ends. *)
Theorem console_mode_touches_no_file (parsed : Namespace) :
  output_metrics parsed = false ->
  forall ev, In ev (fst (run fmt env parsed)) ->
             match ev with
             | CreateDir _ _ | WriteFile _ _ => False
             | _ => True
             end.
Proof.
  intros Hmode.
  assert (H : adds no_file_system (script fmt env parsed)).
  { apply adds_script; try (intros; exact I).
    intros d o. unfold after_original. simpl (output_metrics _). rewrite Hmode.
    apply adds_console_loop; intros; exact I. }
  destruct (H []) as (more & E & Hall). unfold run. rewrite E.
  rewrite Forall_forall in Hall. exact Hall.
Qed.









Lemma adds_bind_returned {A B : Type} (P : event -> Prop) (m : M A) (k : A -> M B) :
  adds P m ->
  (forall a, (exists tr tr', m tr = (tr', inr a)) -> adds P (k a)) ->
  adds P (bind m k).
Proof.
  intros Hm Hk tr. unfold bind.
  destruct (Hm tr) as (more & E & HP).
  destruct (m tr) as [tr' [e | a]] eqn:Em; simpl in E; subst tr'.
  - exists more. auto.
  - destruct (Hk a (ex_intro _ tr (ex_intro _ _ Em)) (tr ++ more)%list)
      as (more' & E' & HP').
    exists (more ++ more')%list. rewrite E', app_assoc.
    split; [reflexivity | apply Forall_app; auto].
Qed.

(** The directory with which file-report mode goes on is the one that
    [create_output_directory] returned. *)
Lemma make_directory_returned (args : Namespace) (dir : string) :
  (exists tr tr',
      try_except_OSError (make_directory env args) directory_failed tr = (tr', inr dir)) ->
  create_output_directory env (fst (directory_request args))
                          (snd (directory_request args)) = inr dir.
Proof.
  intros (tr & tr' & E). revert E.
  unfold try_except_OSError, make_directory, bind, emit, lift. simpl.
  destruct (create_output_directory env (fst (directory_request args))
                                    (snd (directory_request args)))
    as [[a | msg | o | n] | dir']; simpl; try discriminate.
  - unfold directory_failed. destruct (strerror o); unfold bind, print, emit, raise;
      simpl; discriminate.
  - intros H. inversion H. reflexivity.
Qed.

(** X5. With [--output_simple] the only file a run can write is
    [GadgetSetAnalysis.csv] in the results directory, that is, in the
    directory that [create_output_directory] returned for the request of
    the command line; [--output_addresses], [--output_tables] and
    [--output_locality] add no file of their own. *)
Theorem simple_mode_writes_one_file (parsed : Namespace) :
  output_simple parsed = true ->
  forall path lines,
    In (WriteFile path lines) (fst (run fmt env parsed)) ->
    exists dir,
      create_output_directory env (fst (directory_request parsed))
                              (snd (directory_request parsed)) = inr dir
      /\ path = dir ++ "/GadgetSetAnalysis.csv".
Proof.
  intros Hsimple path lines Hin.
  assert (H : adds (simple_report env parsed) (script fmt env parsed)).
  { apply adds_script; try (intros; exact I).
    intros d o. unfold after_original.
    destruct (negb (output_metrics (enable_locality parsed))).
    - apply adds_console_loop; intros; exact I.
    - unfold metrics_mode.
      apply adds_bind_returned; [|intros dir Hdir].
      { eapply adds_weaken; [|apply adds_make_directory].
        intros ev. destruct ev; simpl; tauto. }
      apply make_directory_returned in Hdir.
      apply adds_bind; [apply adds_print; exact I | intros _].
      apply adds_bind; [|intros L0].
      { eapply adds_weaken; [|apply adds_prepare_lines].
        intros ev. destruct ev; simpl; tauto. }
      apply adds_bind; [|intros L].
      { apply adds_for_each. intros key L.
        apply adds_bind; [|auto with trace].
        apply adds_analyze_variant_events; intros; exact I. }
      apply adds_try; [|intros osErr; apply adds_print; exact I].
      unfold write_all. simpl (output_simple _). rewrite Hsimple.
      unfold write_file. destruct (open_w env _); [auto with trace|].
      destruct (writelines env _ _) as [[e kept]|].
      + apply adds_bind; [|auto with trace].
        apply adds_emit. simpl. exists dir. split; [exact Hdir | reflexivity].
      + apply adds_emit. simpl. exists dir. split; [exact Hdir | reflexivity]. }
  destruct (H []) as (more & E & Hall). unfold run in Hin. rewrite E in Hin.
  rewrite Forall_forall in Hall. exact (Hall _ Hin).
Qed.

End FileSystem.

(* ===================================================================== *)
(** * The script when nothing raises *)
(* ===================================================================== *)

Section ReturningRuns.

Import Py GSA Runs.

Variable F : Type.
Variable fmt : Formatting F.
Variable env : Env F.
Variable make : string -> string -> bool -> bool -> GadgetSet F.
Variable compare : GadgetSet F -> GadgetSet F -> bool -> bool -> GadgetStats F.

Hypothesis constructs :
  forall n filepath r c, GadgetSet_init env n filepath r c = inr (make n filepath r c).
Hypothesis compares :
  forall o v c l, GadgetStats_init env o v c l = inr (compare o v c l).

(** *** The dictionary that was built *)

Lemma fill_variants_dict_result (vs : list string) :
  forall d0 tr tr' d,
    fill_variants_dict vs d0 tr = (tr', inr d) ->
    d = assign_all d0 (map assignment vs).
Proof.
  induction vs as [|v rest IH]; intros d0 tr tr' d; simpl.
  - intros E. inversion E. reflexivity.
  - destruct (improper (split EQUALS v)).
    + unfold bind, print, emit, raise. simpl. discriminate.
    + intros E. apply (IH _ _ _ _ E).
Qed.

Lemma built_dict_keys (args : Namespace) (d : dict) :
  snd (build_variants_dict args []) = inr d -> NoDup (keys d).
Proof.
  unfold build_variants_dict. destruct (variants args) as [vs|]; [|discriminate].
  destruct (fill_variants_dict vs [] []) as [tr r] eqn:E. simpl. intros ->.
  rewrite (fill_variants_dict_result vs _ _ _ _ E), keys_assign_all.
  apply first_occurrences_fresh.
Qed.

(** Looking up a key of the dictionary gives the path stored with it. *)
Lemma get_of_entry (d : dict) (kv : string * string) :
  NoDup (keys d) -> In kv d -> get d (fst kv) = Some (snd kv).
Proof.
  induction d as [|[k v] r IH]; simpl; intros Hnd Hin; [destruct Hin|].
  inversion Hnd as [|? ? Hk Hr]; subst.
  destruct Hin as [<- | Hin]; simpl.
  - rewrite String.eqb_refl. reflexivity.
  - destruct (String.eqb_spec k (fst kv)) as [-> | Hne].
    + destruct Hk. apply in_map_iff. exists kv. auto.
    + apply IH; assumption.
Qed.

(** *** One turn, and the loops *)

Lemma analyze_variant_returns (args : Namespace) (d : dict) (o : GadgetSet F)
    (kv : string * string) (tr : list event) :
  get d (fst kv) = Some (snd kv) ->
  analyze_variant env args d o (fst kv) tr
  = ((tr ++ variant_events F make compare args o kv)%list,
     inr (analysed F make compare args o kv)).
Proof.
  intros Hget.
  unfold analyze_variant, get_filepath, bind, new_GadgetSet, new_GadgetStats,
    print, emit, lift, ret, bind.
  rewrite Hget. simpl. rewrite constructs. simpl. rewrite compares. simpl.
  unfold variant_events, analysed. simpl.
  repeat rewrite <- app_assoc. reflexivity.
Qed.

Lemma loop_returns (args : Namespace) (d : dict) (o : GadgetSet F) (S : Type)
    (after : GadgetSet F * GadgetStats F -> S -> S) (l : list (string * string)) :
  (forall kv, In kv l -> get d (fst kv) = Some (snd kv)) ->
  forall s tr,
    for_each (keys l)
      (fun key s => bind (analyze_variant env args d o key)
                         (fun vs => ret (after vs s))) s tr
    = ((tr ++ flat_map (variant_events F make compare args o) l)%list,
       inr (fold_left (fun s vs => after vs s)
                      (map (analysed F make compare args o) l) s)).
Proof.
  induction l as [|kv rest IH]; intros Hget s tr; simpl.
  - rewrite app_nil_r. reflexivity.
  - unfold bind at 1. unfold bind at 1.
    rewrite (analyze_variant_returns args d o kv tr (Hget kv (or_introl eq_refl))).
    unfold ret at 1. rewrite IH; [|intros kv' H; apply Hget; right; exact H].
    rewrite <- app_assoc. reflexivity.
Qed.

Lemma prepare_lines_returns (args : Namespace) (o : GadgetSet F) (tr : list event) :
  prepare_lines fmt args o tr
  = ((tr ++ prepare_prints args)%list, inr (initial_lines F fmt args o)).
Proof.
  unfold prepare_lines, prepare_prints, initial_lines, when.
  destruct (output_simple args); [unfold ret; rewrite app_nil_r; reflexivity|].
  destruct (output_addresses args), (tables_requested args);
    unfold bind, print, emit, ret; simpl;
    repeat rewrite <- app_assoc; simpl; rewrite ?app_nil_r; reflexivity.
Qed.

(** X6. Console mode, when the dictionary is built and no constructor
    raises: after the opening, the run does one turn per entry of the
    dictionary, in the order of the dictionary: it prints the line about
    the variant, constructs the variant's set from the entry's path and
    compares it with the original's set; then it ends normally. *)
Theorem console_run (parsed : Namespace) (d : dict) :
  output_metrics parsed = false ->
  snd (build_variants_dict (enable_locality parsed) []) = inr d ->
  let args := enable_locality parsed in
  let o := make (original_name parsed) (original parsed) false (output_console parsed) in
  run fmt env parsed
  = ((opening parsed ++ flat_map (variant_events F make compare args o) d)%list,
     inr tt)
  /\ exit_status (snd (run fmt env parsed)) = 0%Z.
Proof.
  intros Hmode Hdict args o.
  assert (E : run fmt env parsed
              = ((opening parsed ++ flat_map (variant_events F make compare args o) d)%list,
                 inr tt)).
  { pose proof (built_dict_keys _ _ Hdict) as Hnd.
    destruct (build_variants_dict (enable_locality parsed) []) as [tr0 r0] eqn:B.
    simpl in Hdict. subst r0.
    pose proof (build_variants_dict_silent _ _ _ _ B) as ->.
    rewrite (script_after_dict F fmt env parsed d [] B), constructs.
    unfold after_original. simpl (output_metrics _). rewrite Hmode.
    cbn [negb]. unfold console_mode. fold o.
    rewrite (loop_returns (enable_locality parsed) d o unit (fun _ _ => tt) d
               (fun kv H => get_of_entry d kv Hnd H)).
    simpl app. f_equal. f_equal.
    clear. induction (map (analysed F make compare (enable_locality parsed) o) d);
      simpl; auto. }
  rewrite E. split; reflexivity.
Qed.

(** X7. File-report mode, when the dictionary is built, no constructor
    raises and the directory is created: after the opening the run asks
    for the directory, announces it, prints the notices of lines 177-183,
    does one turn per entry of the dictionary as in console mode, and
    writes the planned files with the lines accumulated over those
    turns, up to the first file for which [open] or [writelines]
    raises.  An [OSError] raised there is printed and the run ends
    normally; an exception of another class leaves the script, uncaught.
    So the exit status is 0 when every write succeeds or fails with an
    [OSError]. *)
Theorem metrics_run (parsed : Namespace) (d : dict) (dir : string) :
  output_metrics parsed = true ->
  snd (build_variants_dict (enable_locality parsed) []) = inr d ->
  create_output_directory env (fst (directory_request parsed))
                          (snd (directory_request parsed)) = inr dir ->
  let args := enable_locality parsed in
  let o := make (original_name parsed) (original parsed) false (output_console parsed) in
  let L := lines_after F fmt args (initial_lines F fmt args o)
                       (map (analysed F make compare args o) d) in
  let failure := snd (written env (planned_files args dir L)) in
  run fmt env parsed
  = ((opening parsed
      ++ [ CreateDir (fst (directory_request parsed)) (snd (directory_request parsed));
           Print ("Writing metrics files to " ++ dir)%string ]
      ++ prepare_prints args
      ++ flat_map (variant_events F make compare args o) d
      ++ fst (written env (planned_files args dir L))
      ++ error_line failure)%list,
     write_outcome failure)
  /\ ((forall e, failure = Some e -> exists osErr, e = OSError osErr) ->
      exit_status (snd (run fmt env parsed)) = 0%Z).
Proof.
  intros Hmode Hdict Hdir args o L failure.
  assert (E : run fmt env parsed
    = ((opening parsed
      ++ [ CreateDir (fst (directory_request parsed)) (snd (directory_request parsed));
           Print ("Writing metrics files to " ++ dir)%string ]
      ++ prepare_prints args
      ++ flat_map (variant_events F make compare args o) d
      ++ fst (written env (planned_files args dir L))
      ++ error_line failure)%list,
     write_outcome failure)).
  { pose proof (built_dict_keys _ _ Hdict) as Hnd.
    destruct (build_variants_dict (enable_locality parsed) []) as [tr0 r0] eqn:B.
    simpl in Hdict. subst r0.
    pose proof (build_variants_dict_silent _ _ _ _ B) as ->.
    rewrite (script_after_dict F fmt env parsed d [] B), constructs.
    unfold after_original. simpl (output_metrics _). rewrite Hmode.
    cbn [negb]. fold o.
    unfold metrics_mode, bind at 1, try_except_OSError, make_directory, bind at 1,
      emit, lift.
    change (directory_request (enable_locality parsed)) with (directory_request parsed).
    cbv beta iota zeta. rewrite Hdir.
    unfold bind at 1, print, emit. cbv beta iota.
    unfold bind at 1. rewrite prepare_lines_returns.
    unfold bind at 1.
    rewrite (loop_returns (enable_locality parsed) d o Lines
               (fun vs L => add_variant_lines fmt (enable_locality parsed) (fst vs) (snd vs) L)
               d (fun kv H => get_of_entry d kv Hnd H)).
    rewrite write_reports_written.
    fold args. fold o. unfold failure, L, lines_after.
    repeat rewrite <- app_assoc. reflexivity. }
  split; [exact E|].
  intros Hos. rewrite E. simpl. destruct failure as [e|]; [|reflexivity].
  destruct (Hos e eq_refl) as [osErr ->]. reflexivity.
Qed.

End ReturningRuns.

(* ===================================================================== *)
(** * The rows of the reports *)
(* ===================================================================== *)

Section Rows.

Import Py GSA Runs.

Variable F : Type.
Variable fmt : Formatting F.

Lemma lines_after_cons (args : Namespace) (L0 : Lines)
    (v : GadgetSet F * GadgetStats F) (seen : list (GadgetSet F * GadgetStats F)) :
  lines_after F fmt args L0 (v :: seen)
  = lines_after F fmt args (add_variant_lines fmt args (fst v) (snd v) L0) seen.
Proof. reflexivity. Qed.

(** X8. The loop adds rows and never touches a row that is there.  In
    simple mode the one list gets one row per variant seen, in order.
    Otherwise the lists of files 1 to 5 and 7 each get one row per
    variant; the locality list gets its rows only when locality is
    enabled and the list of sensitive gadgets its blocks only with
    [--output_addresses]; without them these lists stay as they
    were. *)
Theorem report_rows (args : Namespace) (seen : list (GadgetSet F * GadgetStats F)) :
  forall L0,
  let L := lines_after F fmt args L0 seen in
  let rows (row : GadgetSet F -> GadgetStats F -> string) :=
    map (fun v => row (fst v) (snd v)) seen in
  if output_simple args then
    simple_lines L = (simple_lines L0 ++ rows (simple_variant F fmt))%list
  else
    file_1_lines L = (file_1_lines L0 ++ rows (file_1_variant F fmt))%list
    /\ file_2_lines L = (file_2_lines L0 ++ rows (file_2_variant F fmt))%list
    /\ file_3_lines L = (file_3_lines L0 ++ rows (file_3_variant F fmt))%list
    /\ file_4_lines L = (file_4_lines L0 ++ rows (file_4_variant F fmt))%list
    /\ file_5_lines L = (file_5_lines L0 ++ rows (file_5_variant F))%list
    /\ file_6_lines L
       = (file_6_lines L0
          ++ (if output_locality args then rows (file_6_variant F fmt) else []))%list
    /\ file_7_lines L = (file_7_lines L0 ++ rows (file_7_variant F fmt))%list
    /\ file_8_lines L
       = (file_8_lines L0
          ++ (if output_addresses args
              then flat_map (fun v => file_8_variant fmt (fst v)) seen else []))%list.
Proof.
  induction seen as [|v rest IH]; intros L0.
  - cbv zeta. simpl. destruct (output_simple args), (output_locality args),
      (output_addresses args); rewrite ?app_nil_r; auto 10.
  - cbv zeta. rewrite lines_after_cons.
    specialize (IH (add_variant_lines fmt args (fst v) (snd v) L0)).
    cbv zeta in IH. unfold add_variant_lines, append, append_if in *.
    destruct (output_simple args).
    + rewrite IH. cbn [simple_lines map]. rewrite <- app_assoc. reflexivity.
    + destruct (output_locality args), (output_addresses args);
        destruct IH as (H1 & H2 & H3 & H4 & H5 & H6 & H7 & H8);
        rewrite H1, H2, H3, H4, H5, H6, H7, H8;
        cbn [file_1_lines file_2_lines file_3_lines file_4_lines file_5_lines
             file_6_lines file_7_lines file_8_lines map flat_map];
        rewrite <- ?app_assoc; cbn [app]; repeat split; reflexivity.
Qed.

Lemma flat_map_length_const {A B : Type} (f : A -> list B) (n : nat) (l : list A) :
  (forall x, List.length (f x) = n) -> List.length (flat_map f l) = n * List.length l.
Proof.
  intros H. induction l as [|x r IH]; simpl; [lia|].
  rewrite length_app, H, IH. lia.
Qed.

(** X9. The block that lines 296-311 write for a variant is, in this
    order: the heading with the variant's name; then, for the ten
    special-purpose sets in the order of lines 297-301 and for each
    gadget of a set in the set's order, three lines (the instructions,
    the offset, and either the function found or the notice that none
    was found); then the separator.  So a gadget that is in several
    sets is reported once per set, and the block has [2 + 3 n] lines for
    [n] visits. *)
Theorem sensitive_block (variant : GadgetSet F) :
  file_8_variant fmt variant
  = (("Sensitive gadgets introduced in variant: " ++ name variant ++ LINE_SEP)%string
     :: flat_map
          (fun gadget =>
             [ "Gadget: " ++ str_instructions fmt (instructions gadget) ++ LINE_SEP;
               "Found at offset: " ++ offset gadget ++ LINE_SEP;
               match getFunction variant (offset gadget) with
               | None => "No associated function found." ++ LINE_SEP
               | Some function =>
                   "Most likely location in source code: " ++ function ++ LINE_SEP
               end ]%string)
          (SyscallGadgets variant ++ JOPDispatchers F variant
           ++ JOPDataLoaders F variant ++ JOPInitializers F variant
           ++ JOPTrampolines F variant ++ COPDispatchers F variant
           ++ COPDataLoaders F variant ++ COPInitializers F variant
           ++ COPStrongTrampolines F variant ++ COPIntrastackPivots F variant)
     ++ [("----------------------------------------------------------" ++ LINE_SEP)%string])%list
  /\ List.length (file_8_variant fmt variant) = 2 + 3 * special_visits variant.
Proof.
  assert (E : flat_map (fun specialSet => flat_map (gadget_lines fmt variant) specialSet)
                       (specialSets variant)
              = flat_map (gadget_lines fmt variant) (List.concat (specialSets variant))).
  { induction (specialSets variant) as [|s r IH]; simpl; [reflexivity|].
    rewrite flat_map_app, IH. reflexivity. }
  split.
  - unfold file_8_variant. cbv zeta. rewrite E.
    unfold specialSets. cbn [List.concat app]. rewrite app_nil_r. reflexivity.
  - unfold file_8_variant, special_visits. cbv zeta. rewrite E.
    cbn [app List.length]. rewrite length_app.
    rewrite (flat_map_length_const (gadget_lines fmt variant) 3); [|reflexivity].
    simpl. lia.
Qed.

Lemma string_app_assoc (a b c : string) : (a ++ b) ++ c = a ++ (b ++ c).
Proof. induction a as [|x a IH]; simpl; [reflexivity | rewrite IH; reflexivity]. Qed.

Lemma string_app_empty (a : string) : a ++ EmptyString = a.
Proof. induction a as [|x a IH]; simpl; [reflexivity | rewrite IH; reflexivity]. Qed.

(** The four rows of a table that has four rows. *)
Lemma four_rows (rows : list string) :
  List.length rows = 4 -> rows = [item rows 0; item rows 1; item rows 2; item rows 3].
Proof.
  destruct rows as [|a [|b [|c [|d [|e l]]]]]; simpl; try discriminate. reflexivity.
Qed.

Lemma table_lines_after (args : Namespace) (seen : list (GadgetSet F * GadgetStats F)) :
  output_simple args = false -> tables_requested args = true ->
  forall L0, List.length (table_lines L0) = 4 ->
    table_lines (lines_after F fmt args L0 seen)
    = map (fun i => item (table_lines L0) i
                    ++ join (map (fun v => item (table_cells F fmt (fst v) (snd v)) i) seen))
          [0; 1; 2; 3].
Proof.
  intros Hmode Htables. induction seen as [|v rest IH]; intros L0 Hlen.
  - simpl. rewrite !string_app_empty. apply four_rows, Hlen.
  - rewrite lines_after_cons, IH.
    + unfold add_variant_lines. rewrite Hmode, Htables. cbn [table_lines].
      unfold table_variant, table_cells, item. cbn [map nth join fold_right].
      rewrite !string_app_assoc. reflexivity.
    + unfold add_variant_lines. rewrite Hmode, Htables. reflexivity.
Qed.

(** X10. Outside simple mode and with a row label, the table has four
    rows at every turn of the loop, and row [i] is the original's row
    [i] (the label and the original's cell) followed by the cell [i] of
    each variant seen, in order: a turn only appends one cell to the
    right of each row, and never moves text from one row to another. *)
Theorem table_rows (args : Namespace) (original : GadgetSet F)
    (seen : list (GadgetSet F * GadgetStats F)) :
  output_simple args = false ->
  tables_requested args = true ->
  table_lines (lines_after F fmt args (initial_lines F fmt args original) seen)
  = map (fun i => item (table_original F fmt args original) i
                  ++ join (map (fun v => item (table_cells F fmt (fst v) (snd v)) i) seen))
        [0; 1; 2; 3].
Proof.
  intros Hmode Htables.
  assert (E : table_lines (initial_lines F fmt args original)
              = table_original F fmt args original).
  { unfold initial_lines. rewrite Hmode. reflexivity. }
  rewrite <- E. apply table_lines_after; try assumption.
  rewrite E. unfold table_original. rewrite Htables. reflexivity.
Qed.

End Rows.

(* ===================================================================== *)
(** * Instances in the concrete worlds *)
(* ===================================================================== *)

Section MoreConcrete.

Import Py GSA World Runs.

Lemma accepted_entries_witness :
  improper (split EQUALS "v=b.out") = false.
Proof.
  apply (accepted_entries "v=b.out"). exists "v", "b.out".
  split; [reflexivity|].
  split; [split; [discriminate | reflexivity]|].
  split; [split; [discriminate | reflexivity] | reflexivity].
Defined.

Lemma entries_decide_witness :
  run fmt env (command (Some ["v=b.out"; "a=b=c"]) true false None)
  = ([diagnostic], inl (SystemExit (Code 1)))
  /\ exists later,
       fst (run fmt env (command (Some ["v=b.out"; "w=c.out"]) false false None))
       = (opening (command (Some ["v=b.out"; "w=c.out"]) false false None) ++ later)%list.
Proof.
  split.
  - apply (entries_decide string fmt env _ ["v=b.out"; "a=b=c"]); [reflexivity|].
    apply Exists_cons_tl, Exists_cons_hd. intros H.
    apply well_formed_accepted in H. discriminate H.
  - apply (entries_decide string fmt env _ ["v=b.out"; "w=c.out"]); [reflexivity|].
    repeat constructor; apply well_formed_accepted; reflexivity.
Defined.

Lemma console_mode_touches_no_file_witness :
  output_metrics (command (Some ["v=b.out"]) false true (Some "out")) = false
  /\ forall ev,
       In ev (fst (run fmt env (command (Some ["v=b.out"]) false true (Some "out")))) ->
       match ev with
       | CreateDir _ _ | WriteFile _ _ => False
       | _ => True
       end.
Proof.
  split; [reflexivity|].
  apply (console_mode_touches_no_file string fmt env). reflexivity.
Defined.


Lemma simple_mode_writes_one_file_witness :
  output_simple (with_simple (command (Some ["v=b.out"]) true true (Some "out"))) = true
  /\ forall path lines,
       In (WriteFile path lines)
          (fst (run fmt calm
                  (with_simple (command (Some ["v=b.out"]) true true (Some "out"))))) ->
       exists dir,
         create_output_directory calm
           (fst (directory_request
                   (with_simple (command (Some ["v=b.out"]) true true (Some "out")))))
           (snd (directory_request
                   (with_simple (command (Some ["v=b.out"]) true true (Some "out")))))
         = inr dir
         /\ path = dir ++ "/GadgetSetAnalysis.csv".
Proof.
  split; [reflexivity|].
  apply (simple_mode_writes_one_file string fmt calm). reflexivity.
Defined.

Lemma console_run_witness :
  run fmt calm (command (Some ["v=b.out"; "w=c.out"; "v=d.out"]) false false None)
  = ([ Print "Starting Gadget Set Analyzer";
       Print "Analyzing original package [Original] located at: a.out";
       NewGadgetSet "Original" "a.out" false false;
       Print "Analyzing variant package [v] located at: d.out";
       NewGadgetSet "v" "d.out" false false;
       NewGadgetStats "Original" "v" false false;
       Print "Analyzing variant package [w] located at: c.out";
       NewGadgetSet "w" "c.out" false false;
       NewGadgetStats "Original" "w" false false ],
     inr tt).
Proof.
  apply (console_run string fmt calm calm_make calm_compare
           (fun _ _ _ _ => eq_refl) (fun _ _ _ _ => eq_refl)
           (command (Some ["v=b.out"; "w=c.out"; "v=d.out"]) false false None)
           [("v", "d.out"); ("w", "c.out")]); reflexivity.
Defined.

Lemma metrics_run_witness :
  exit_status
    (snd (run fmt calm (command (Some ["v=b.out"]) true false (Some "out")))) = 0%Z
  /\ snd (run fmt strict
            (with_tables "demo" (command (Some ["v=b.out"]) true false (Some "out"))))
     = inl (Failure "UnicodeEncodeError").
Proof.
  split.
  - apply (metrics_run string fmt calm calm_make calm_compare
             (fun _ _ _ _ => eq_refl) (fun _ _ _ _ => eq_refl)
             (command (Some ["v=b.out"]) true false (Some "out"))
             [("v", "b.out")] "results/out"); try reflexivity.
    intros e H. vm_compute in H. discriminate H.
  - destruct (metrics_run string fmt strict calm_make calm_compare
                (fun _ _ _ _ => eq_refl) (fun _ _ _ _ => eq_refl)
                (with_tables "demo" (command (Some ["v=b.out"]) true false (Some "out")))
                [("v", "b.out")] "results/out" eq_refl eq_refl eq_refl) as [E _].
    rewrite E. reflexivity.
Defined.

Lemma sensitive_block_witness :
  file_8_variant fmt (binary "v" [gadget_at "b.out"])
  = [ "Sensitive gadgets introduced in variant: v" ++ LINE_SEP;
      "Gadget: pop rax ; syscall" ++ LINE_SEP;
      "Found at offset: b.out" ++ LINE_SEP;
      "No associated function found." ++ LINE_SEP;
      "----------------------------------------------------------" ++ LINE_SEP ].
Proof.
  rewrite (proj1 (sensitive_block string fmt (binary "v" [gadget_at "b.out"]))).
  reflexivity.
Defined.

Lemma table_rows_witness :
  table_lines
    (lines_after string fmt
       (with_tables "demo" (command (Some ["v=b.out"]) true false None))
       (initial_lines string fmt
          (with_tables "demo" (command (Some ["v=b.out"]) true false None))
          (binary "Original" [gadget_at "a.out"]))
       [(binary "v" [gadget_at "b.out"], unchanged)])
  = [ "demo & 1 & 1 (0.0%)";
      "demo & 0/0/0 & 0/0/0 & (0/0/0)";
      "demo & 0 / 0.00 & 0 / 0.00 & (0 / 0.00)";
      "demo & 1 & 1 & (0)" ].
Proof.
  rewrite (table_rows string fmt
             (with_tables "demo" (command (Some ["v=b.out"]) true false None))
             (binary "Original" [gadget_at "a.out"])
             [(binary "v" [gadget_at "b.out"], unchanged)] eq_refl eq_refl).
  reflexivity.
Defined.

End MoreConcrete.

(* ===================================================================== *)
(** * How rates are reported *)
(* ===================================================================== *)

Section Rates.

Import Py GSA Percent.







Variable F : Type.
Variable fmt : Formatting F.
Variable digits : F -> string.

Hypothesis percent : percent_format fmt digits.


End Rates.

Section RatesConcrete.

Import Py GSA Percent.



End RatesConcrete.
